(** * perceptron-benchmark: cloud model wrappers and the seeding utility

    A shallow embedding of

      - [perceptron/models/classification/cloud.py]: the wrapper classes
        [AipModel], [AipAntiPornModel], [GoogleCloudModel],
        [GoogleSafeSearchModel], [GoogleObjectDetectionModel],
        [GoogleOCRModel] and [OfflineAntiPornModel];
      - [perceptron/utils/rngs.py]: [set_seeds].

    Python objects are an inductive type of values, a dict is an association
    list in insertion order, exceptions are an error type, and every method
    is a function in a state-and-error monad whose state is the receiver
    ([self]) paired with the world outside the process (environment
    variables, the [random] module's generator, standard output, and the
    remote services with the log of calls issued to them). *)

From Stdlib Require Import ZArith List String Ascii Strings.Byte Bool Lia.
From Stdlib Require Import NArith Decimal DecimalString DecimalPos DecimalZ.
Import ListNotations.

Local Open Scope string_scope.
Local Open Scope Z_scope.

Set Implicit Arguments.
Set Warnings "-register-all".

(** ** Python values *)

Definition bytes := list byte.

(** A [float] is never computed with by this code, it is only passed on: it
    is carried as the decimal text that denotes it.  A [str] is a string of
    code points below 256. *)
Inductive pyobj : Type :=
| PyNone
| PyBool (b : bool)
| PyInt (z : Z)
| PyFloat (repr : string)
| PyStr (s : string)
| PyBytes (b : bytes)
| PyList (items : list pyobj)
| PyTuple (items : list pyobj)
| PyDict (entries : list (string * pyobj)).

(** A dict as the interpreter keeps it: keys in insertion order. *)
Definition pydict := list (string * pyobj).

(** [key in d] and [d.get(key)]. *)
Fixpoint dict_get (key : string) (d : pydict) : option pyobj :=
  match d with
  | [] => None
  | (k, v) :: rest => if String.eqb k key then Some v else dict_get key rest
  end.

Definition dict_contains (key : string) (d : pydict) : bool :=
  match dict_get key d with Some _ => true | None => false end.

(** [d[key] = v]: an existing key keeps its place, a new one goes last. *)
Fixpoint dict_set (key : string) (v : pyobj) (d : pydict) : pydict :=
  match d with
  | [] => [(key, v)]
  | (k, x) :: rest =>
      if String.eqb k key then (k, v) :: rest else (k, x) :: dict_set key v rest
  end.

(** ** Exceptions *)

(** The exceptions the embedded code can meet.  [VendorError] stands for
    whatever a vendor SDK or the network layer raises ([URLError],
    [HTTPError], a gRPC error, ...), with its message; all of them are
    instances of [Exception]. *)
Inductive exn : Type :=
| AssertionError (msg : string)
| UnboundLocalError (name : string)
| KeyError (key : string)
| IndexError
| TypeError
| ValueError (msg : string)
| UnicodeError
| DecodeError
| AttributeError (msg : string)
| VendorError (msg : string).

Inductive result (A : Type) : Type :=
| Ok (a : A)
| Raise (e : exn).
Arguments Ok {A} a.
Arguments Raise {A} e.

(** [str(e)], as [print(e)] shows it. *)
Definition exn_str (e : exn) : string :=
  match e with
  | AssertionError m => m
  | UnboundLocalError n =>
      "local variable '" ++ n ++ "' referenced before assignment"
  | KeyError k => "'" ++ k ++ "'"
  | IndexError => "list index out of range"
  | TypeError => "TypeError"
  | ValueError m => m
  | UnicodeError => "UnicodeError"
  | DecodeError => "Error parsing message"
  | AttributeError m => m
  | VendorError m => m
  end.

(** ** The state-and-error monad *)

(** A raised exception keeps the state reached so far. *)
Definition M (St A : Type) : Type := St -> result A * St.

Definition ret {St A} (a : A) : M St A := fun s => (Ok a, s).

Definition raise {St A} (e : exn) : M St A := fun s => (Raise e, s).

Definition bind {St A B} (m : M St A) (k : A -> M St B) : M St B :=
  fun s =>
    match m s with
    | (Ok a, s') => k a s'
    | (Raise e, s') => (Raise e, s')
    end.

(** [try: m  except Exception as e: h e]. *)
Definition try_except {St A} (m : M St A) (h : exn -> M St A) : M St A :=
  fun s =>
    match m s with
    | (Ok a, s') => (Ok a, s')
    | (Raise e, s') => h e s'
    end.

Definition lift_result {St A} (r : result A) : M St A := fun s => (r, s).

(** The same sequencing where no state is involved. *)
Definition and_then {A B} (r : result A) (k : A -> result B) : result B :=
  match r with
  | Ok a => k a
  | Raise e => Raise e
  end.

Declare Scope monad_scope.
Delimit Scope monad_scope with monad.
Notation "x <- m ;; k" := (bind m (fun x => k))
  (at level 61, m at next level, right associativity) : monad_scope.
Notation "m ;;; k" := (bind m (fun _ => k))
  (at level 61, right associativity) : monad_scope.
Notation "x <-? r ;; k" := (and_then r (fun x => k))
  (at level 61, r at next level, right associativity) : monad_scope.

(** ** Bytes and text *)

Definition is_ascii_char (c : ascii) : bool := (N_of_ascii c <? 128)%N.

Fixpoint is_ascii (s : string) : bool :=
  match s with
  | EmptyString => true
  | String c rest => is_ascii_char c && is_ascii rest
  end.

(** [s.encode('ascii')]: fails on a code point above 127. *)
Definition encode_ascii (s : string) : result bytes :=
  if is_ascii s then Ok (list_byte_of_string s) else Raise UnicodeError.

(** [str.strip()] and [bytes.strip()]: the white space of a [str] is, below
    256, the code points 9 to 13, 28 to 32, 133 and 160; that of [bytes] is
    9 to 13 and 32. *)
Definition is_space (c : ascii) : bool :=
  let n := N_of_ascii c in
  ((9 <=? n) && (n <=? 13) || (28 <=? n) && (n <=? 32) || (n =? 133) || (n =? 160))%N.

Fixpoint lstrip (s : string) : string :=
  match s with
  | EmptyString => EmptyString
  | String c rest => if is_space c then lstrip rest else s
  end.

Definition string_rev (s : string) : string :=
  string_of_list_ascii (List.rev (list_ascii_of_string s)).

Definition str_strip (s : string) : string :=
  string_rev (lstrip (string_rev (lstrip s))).

Definition is_space_byte (b : byte) : bool :=
  let n := Byte.to_N b in
  ((9 <=? n) && (n <=? 13) || (n =? 32))%N.

Fixpoint bytes_lstrip (b : bytes) : bytes :=
  match b with
  | [] => []
  | x :: rest => if is_space_byte x then bytes_lstrip rest else b
  end.

Definition bytes_strip (b : bytes) : bytes :=
  List.rev (bytes_lstrip (List.rev (bytes_lstrip b))).

(** ** [base64.b64encode] (RFC 4648, standard alphabet, padded) *)

Definition b64_alphabet : string :=
  "ABCDEFGHIJKLMNOPQRSTUVWXYZabcdefghijklmnopqrstuvwxyz0123456789+/".

Definition b64_digit (n : N) : byte :=
  match String.get (N.to_nat n) b64_alphabet with
  | Some c => byte_of_ascii c
  | None => "="%byte
  end.

Definition b64_pad : byte := "="%byte.

Fixpoint b64encode (data : bytes) : bytes :=
  match data with
  | [] => []
  | [a] =>
      let x := Byte.to_N a in
      [b64_digit (x / 4); b64_digit ((x mod 4) * 16); b64_pad; b64_pad]
  | [a; b] =>
      let x := Byte.to_N a in
      let y := Byte.to_N b in
      [b64_digit (x / 4); b64_digit ((x mod 4) * 16 + y / 16);
       b64_digit ((y mod 16) * 4); b64_pad]
  | a :: b :: c :: rest =>
      let x := Byte.to_N a in
      let y := Byte.to_N b in
      let z := Byte.to_N c in
      b64_digit (x / 4) :: b64_digit ((x mod 4) * 16 + y / 16)
        :: b64_digit ((y mod 16) * 4 + z / 64) :: b64_digit (z mod 64)
        :: b64encode rest
  end%N.

(** ** [ujson.dumps] *)

Definition dquote : ascii := "034"%char.

Definition hex_digit (n : N) : ascii :=
  match String.get (N.to_nat n) "0123456789abcdef" with
  | Some c => c
  | None => "0"%char
  end.

(** One code point of a JSON string: the quote, the backslash and, as ujson
    does by default ([escape_forward_slashes]), the slash are escaped;
    control characters and everything above 126 become [\u00XX]
    ([ensure_ascii]). *)
Definition json_escape_char (c : ascii) : string :=
  let n := N_of_ascii c in
  if (n =? 34)%N then String "\" (String dquote EmptyString)
  else if (n =? 92)%N then "\\"
  else if (n =? 47)%N then "\/"
  else if (n =? 8)%N then "\b"
  else if (n =? 9)%N then "\t"
  else if (n =? 10)%N then "\n"
  else if (n =? 12)%N then "\f"
  else if (n =? 13)%N then "\r"
  else if ((n <? 32) || (126 <? n))%N then
    "\u00" ++ String (hex_digit (n / 16))
                 (String (hex_digit (n mod 16)) EmptyString)
  else String c EmptyString.

Fixpoint json_escape (s : string) : string :=
  match s with
  | EmptyString => EmptyString
  | String c rest => json_escape_char c ++ json_escape rest
  end.

Definition json_quote (s : string) : string :=
  String dquote (json_escape s ++ String dquote EmptyString).

Definition json_int (z : Z) : string := NilZero.string_of_int (Z.to_int z).

Fixpoint join (sep : string) (parts : list string) : string :=
  match parts with
  | [] => EmptyString
  | [p] => p
  | p :: rest => p ++ sep ++ join sep rest
  end.

(** The compact form ujson writes: no white space, the keys of a dict in
    insertion order.  [bytes] are written as the text they hold (ujson 1.x
    reads them as UTF-8, which for the ASCII output of base64 is the bytes
    themselves). *)
Fixpoint json_dumps (v : pyobj) : string :=
  match v with
  | PyNone => "null"
  | PyBool true => "true"
  | PyBool false => "false"
  | PyInt z => json_int z
  | PyFloat repr => repr
  | PyStr s => json_quote s
  | PyBytes b => json_quote (string_of_list_byte b)
  | PyList items => "[" ++ join "," (map json_dumps items) ++ "]"
  | PyTuple items => "[" ++ join "," (map json_dumps items) ++ "]"
  | PyDict entries =>
      "{" ++ join ","
               (map (fun kv => json_quote (fst kv) ++ ":" ++ json_dumps (snd kv))
                    entries)
          ++ "}"
  end.

(** ** Protocol-buffer messages *)

(** A message is the list of its set fields, as [ListFields] gives them; a
    scalar leaf is carried as the Python value [protobuf_to_dict] gives
    it. *)
Inductive pbvalue : Type :=
| PbScalar (v : pyobj)
| PbMessage (fields : list (string * pbvalue))
| PbRepeated (items : list pbvalue).

Definition message := list (string * pbvalue).

Fixpoint pb_to_py (v : pbvalue) : pyobj :=
  match v with
  | PbScalar x => x
  | PbMessage fields =>
      PyDict (map (fun kv => (fst kv, pb_to_py (snd kv))) fields)
  | PbRepeated items => PyList (map pb_to_py items)
  end.

(** [protobuf_to_dict(pb)]: a dict with one entry per set field. *)
Definition protobuf_to_dict (pb : message) : pydict :=
  map (fun kv => (fst kv, pb_to_py (snd kv))) pb.

Fixpoint message_get (name : string) (pb : message) : option pbvalue :=
  match pb with
  | [] => None
  | (k, v) :: rest => if String.eqb k name then Some v else message_get name rest
  end.

(** Reading a repeated field of a message: empty when the field is not
    set. *)
Definition repeated_field (name : string) (pb : message) : result (list pbvalue) :=
  match message_get name pb with
  | None => Ok []
  | Some (PbRepeated items) => Ok items
  | Some _ => Raise TypeError
  end.

Definition as_message (v : pbvalue) : result message :=
  match v with
  | PbMessage fields => Ok fields
  | _ => Raise TypeError
  end.

(** The request of the offline service, with the two fields and the one
    nested message the client code writes. *)
Record ClassifyType : Type := {
  type_name : option string;
  topnum : option Z
}.

Record GeneralClassifyRequest : Type := {
  image : option bytes;
  classify_type : list ClassifyType
}.

(** ** Pseudo-random generators *)

(** A deterministic generator is the stream of raw words it will give and
    the position reached in it.  A generator seeded from the operating
    system's entropy, as [random.Random()] and [np.random.RandomState()]
    are when a module is imported, has an arbitrary stream. *)
Record generator : Type := {
  stream : nat -> Z;
  position : nat
}.

(** A request to a generator ([randint], [random], [normal], ...): from the
    words still to come it computes a value and the number of words used. *)
Definition request (V : Type) : Type := (nat -> Z) -> V * nat.

Definition draw {V} (req : request V) (g : generator) : V * generator :=
  let (v, used) := req (fun i => stream g (position g + i)%nat) in
  (v, {| stream := stream g; position := (position g + used)%nat |}).

(** [randint(a, b)]: an integer of the closed range. *)
Definition randint_request (a b : Z) : request Z :=
  fun words => (a + words 0%nat mod (b - a + 1), 1%nat).

(** ** What is not in this repository's [cloud.py] *)

(** The pure functions [cloud.py] imports: [ndarray_to_bytes] of
    [perceptron.utils.image], the generated protobuf classes of the offline
    service, the reading half of ujson and of base64, and UTF-8 decoding.
    [None] is the function's own exception.  [Request_refuses] is the check
    [urllib.request.Request] makes of its url when it is constructed: the
    message of the [ValueError] it raises (for a url without a scheme:
    [unknown url type]), or [None] when it takes the url. *)
Class Foreign : Type := {
  ndarray : Type;
  ndarray_to_bytes : ndarray -> bytes;
  SerializeToString : GeneralClassifyRequest -> bytes;
  ParseFromString : bytes -> option message;
  json_loads : string -> option pyobj;
  b64decode : bytes -> option bytes;
  decode_utf8 : bytes -> option string;
  Request_refuses : string -> option string
}.

(** ** The world outside the process *)

(** A [urllib.request.Request] object: the url and the data it was made
    with, and its added headers. *)
Record Request : Type := {
  full_url : string;
  data : bytes;
  headers : list (string * string)
}.

Definition add_header (key val : string) (req : Request) : Request :=
  {| full_url := full_url req; data := data req;
     headers := (headers req ++ [(key, val)])%list |}.

(** [urllib.request.Request(url, data)]: the constructor checks the url and
    raises [ValueError] when it does not take it. *)
Definition new_Request {F : Foreign} (url : string) (body : bytes)
  : result Request :=
  match Request_refuses url with
  | None => Ok {| full_url := url; data := body; headers := [] |}
  | Some msg => Raise (ValueError msg)
  end.

(** [vision.types.Image(content=...)]. *)
Record Image : Type := { content : bytes }.

(** The vendor SDK clients are handles: what they keep (tokens,
    connections) belongs to the world.  The lazy imports of the SDK
    packages are taken to succeed. *)
Record AipImageCensor : Type := {
  censor_appId : pyobj;
  censor_apiKey : pyobj;
  censor_secretKey : pyobj
}.

Definition py_type_name (v : pyobj) : string :=
  match v with
  | PyNone => "NoneType"
  | PyBool _ => "bool"
  | PyInt _ => "int"
  | PyFloat _ => "float"
  | PyStr _ => "str"
  | PyBytes _ => "bytes"
  | PyList _ => "list"
  | PyTuple _ => "tuple"
  | PyDict _ => "dict"
  end.

(** [v.strip()]: a [str] and a [bytes] have the method, nothing else
    has. *)
Definition py_strip (v : pyobj) : result pyobj :=
  match v with
  | PyStr s => Ok (PyStr (str_strip s))
  | PyBytes b => Ok (PyBytes (bytes_strip b))
  | _ =>
      Raise (AttributeError
               ("'" ++ py_type_name v ++ "' object has no attribute 'strip'"))
  end.

(** [AipImageCensor(appId, apiKey, secretKey)]: the constructor of the SDK
    keeps the three values stripped, [appId.strip()] first, and so raises
    [AttributeError] on a value that has no [strip]. *)
Definition new_AipImageCensor (appId apiKey secretKey : pyobj)
  : result AipImageCensor :=
  match py_strip appId with
  | Raise e => Raise e
  | Ok a =>
      match py_strip apiKey with
      | Raise e => Raise e
      | Ok b =>
          match py_strip secretKey with
          | Raise e => Raise e
          | Ok c =>
              Ok {| censor_appId := a; censor_apiKey := b;
                    censor_secretKey := c |}
          end
      end
  end.

Record ImageAnnotatorClient : Type := { annotator_id : nat }.

(** One call that leaves the process. *)
Inductive call : Type :=
| Call_antiPorn (client : AipImageCensor) (image : bytes)
| Call_safe_search_detection (client : ImageAnnotatorClient) (image : Image)
| Call_object_localization (client : ImageAnnotatorClient) (image : Image)
| Call_urlopen (req : Request).

Inductive reply (A : Type) : Type :=
| Answer (a : A)
| Fault (msg : string).
Arguments Answer {A} a.
Arguments Fault {A} msg.

(** How the remote services behave: what the call number [n] of the process
    is answered.  Nothing is assumed of the answers. *)
Record Remote : Type := {
  antiPorn_reply : nat -> AipImageCensor -> bytes -> reply pydict;
  safe_search_detection_reply :
    nat -> ImageAnnotatorClient -> Image -> reply message;
  object_localization_reply :
    nat -> ImageAnnotatorClient -> Image -> reply message;
  urlopen_reply : nat -> Request -> reply bytes;
  annotator_client_reply : nat -> reply unit
}.

Record World : Type := {
  environ : list (string * string);
  random : generator;
  stdout : list string;
  calls : list call;
  clients : nat;
  remote : Remote
}.

Definition with_random (g : generator) (w : World) : World :=
  {| environ := environ w; random := g; stdout := stdout w;
     calls := calls w; clients := clients w; remote := remote w |}.

Definition with_stdout (out : list string) (w : World) : World :=
  {| environ := environ w; random := random w; stdout := out;
     calls := calls w; clients := clients w; remote := remote w |}.

Definition with_calls (cs : list call) (w : World) : World :=
  {| environ := environ w; random := random w; stdout := stdout w;
     calls := cs; clients := clients w; remote := remote w |}.

Definition with_clients (n : nat) (w : World) : World :=
  {| environ := environ w; random := random w; stdout := stdout w;
     calls := calls w; clients := n; remote := remote w |}.

Definition of_reply {A} (r : reply A) : result A :=
  match r with
  | Answer a => Ok a
  | Fault msg => Raise (VendorError msg)
  end.

(** A call is logged when it is issued, whatever comes back. *)
Definition issue {A} (c : call) (answer : Remote -> nat -> reply A) : M World A :=
  fun w =>
    (of_reply (answer (remote w) (List.length (calls w))),
     with_calls (calls w ++ [c])%list w).

Fixpoint environ_get (name : string) (env : list (string * string)) : option string :=
  match env with
  | [] => None
  | (k, v) :: rest => if String.eqb k name then Some v else environ_get name rest
  end.

(** [os.environ.get(name)]. *)
Definition os_environ_get (name : string) : M World (option string) :=
  fun w => (Ok (environ_get name (environ w)), w).

(** [random.randint(a, b)], on the [random] module's own generator. *)
Definition random_randint (a b : Z) : M World Z :=
  fun w =>
    let (v, g) := draw (randint_request a b) (random w) in
    (Ok v, with_random g w).

(** [print(e)]. *)
Definition print (line : string) : M World unit :=
  fun w => (Ok tt, with_stdout (stdout w ++ [line])%list w).

(** [AipImageCensor.antiPorn(image)]. *)
Definition antiPorn (client : AipImageCensor) (image : bytes) : M World pydict :=
  issue (Call_antiPorn client image)
        (fun r n => antiPorn_reply r n client image).

(** [ImageAnnotatorClient.safe_search_detection(image=image)]. *)
Definition safe_search_detection (client : ImageAnnotatorClient) (image : Image)
  : M World message :=
  issue (Call_safe_search_detection client image)
        (fun r n => safe_search_detection_reply r n client image).

(** [ImageAnnotatorClient.object_localization(image=image)]. *)
Definition object_localization (client : ImageAnnotatorClient) (image : Image)
  : M World message :=
  issue (Call_object_localization client image)
        (fun r n => object_localization_reply r n client image).

(** [urlopen(req)] followed by [read()] of what it returns: one round
    trip. *)
Definition urlopen_read (req : Request) : M World bytes :=
  issue (Call_urlopen req) (fun r n => urlopen_reply r n req).

(** [vision.ImageAnnotatorClient()]: a new handle, unless the SDK refuses
    (credentials it cannot load). *)
Definition new_ImageAnnotatorClient : M World ImageAnnotatorClient :=
  fun w =>
    match annotator_client_reply (remote w) (clients w) with
    | Answer _ =>
        (Ok {| annotator_id := clients w |}, with_clients (S (clients w)) w)
    | Fault msg => (Raise (VendorError msg), w)
    end.

(** ** Methods: the monad over the receiver and the world *)

Definition Method (Self A : Type) : Type := M (Self * World) A.

Definition in_world {Self A} (m : M World A) : Method Self A :=
  fun sw =>
    let (r, w') := m (snd sw) in (r, (fst sw, w')).

(** [self.field]. *)
Definition self_field {Self A} (field : Self -> A) : Method Self A :=
  fun sw => (Ok (field (fst sw)), sw).

(** [d[key]] on a Python value. *)
Definition getitem (v : pyobj) (key : string) : result pyobj :=
  match v with
  | PyDict d =>
      match dict_get key d with
      | Some x => Ok x
      | None => Raise (KeyError key)
      end
  | _ => Raise TypeError
  end.

(** [d[key] = x] on a Python value. *)
Definition setitem (v : pyobj) (key : string) (x : pyobj) : result pyobj :=
  match v with
  | PyDict d => Ok (PyDict (dict_set key x d))
  | _ => Raise TypeError
  end.

(** The elements an iterable gives. *)
Definition iter_items (v : pyobj) : result (list pyobj) :=
  match v with
  | PyList items => Ok items
  | PyTuple items => Ok items
  | PyStr s =>
      Ok (map (fun c => PyStr (String c EmptyString)) (list_ascii_of_string s))
  | PyBytes b => Ok (map (fun x => PyInt (Z.of_N (Byte.to_N x))) b)
  | PyDict d => Ok (map (fun kv => PyStr (fst kv)) d)
  | _ => Raise TypeError
  end.

(** [a, b, c = v]. *)
Definition unpack3 (v : pyobj) : result (pyobj * pyobj * pyobj) :=
  match iter_items v with
  | Ok [a; b; c] => Ok (a, b, c)
  | Ok _ => Raise (ValueError "wrong number of values to unpack (expected 3)")
  | Raise e => Raise e
  end.

(** A [for] loop that threads an accumulator. *)
Fixpoint for_each {St A B} (items : list A) (body : B -> A -> M St B) (acc : B)
  : M St B :=
  match items with
  | [] => ret acc
  | x :: rest => bind (body acc x) (for_each rest body)
  end.

(** [l[i]] on a list. *)
Definition list_getitem {A} (l : list A) (i : nat) : result A :=
  match nth_error l i with
  | Some x => Ok x
  | None => Raise IndexError
  end.

Definition default_bounds : pyobj := PyTuple [PyInt 0; PyInt 255].
Definition default_channel_axis : Z := 3.
Definition default_preprocessing : pyobj := PyTuple [PyInt 0; PyInt 1].

Local Open Scope monad_scope.

(** ** The base class *)

(** Modelled from the spec: the base class [Model] of
    [perceptron.models.base] is not among the sources; the spec gives it as
    an external collaborator that defines the [bounds], [channel_axis] and
    [preprocessing] configuration, and so its constructor keeps the three
    values it is given. *)
Module Model.

Record t : Type := {
  _bounds : pyobj;
  _channel_axis : Z;
  _preprocessing : pyobj
}.

Definition __init__ (bounds : pyobj) (channel_axis : Z) (preprocessing : pyobj)
  : M World t :=
  ret {| _bounds := bounds; _channel_axis := channel_axis;
         _preprocessing := preprocessing |}.

End Model.

(** ** [class AipModel(Model)] *)

Module AipModel.

Record t : Type := {
  base : Model.t;
  _appId : pyobj;
  _apiKey : pyobj;
  _secretKey : pyobj
}.

Definition __init__ (credential bounds : pyobj) (channel_axis : Z)
    (preprocessing : pyobj) : M World t :=
  base <- Model.__init__ bounds channel_axis preprocessing ;;
  abc <- lift_result (unpack3 credential) ;;
  let '(a, b, c) := abc in
  ret {| base := base; _appId := a; _apiKey := b; _secretKey := c |}.

End AipModel.

(** ** [class AipAntiPornModel(AipModel)] *)

Module AipAntiPornModel.
Section WithForeign.
Context {F : Foreign}.

Record t : Type := {
  super : AipModel.t;
  _task : string;
  model : AipImageCensor
}.

Definition __init__ (credential bounds : pyobj) (channel_axis : Z)
    (preprocessing : pyobj) : M World t :=
  super <- AipModel.__init__ credential bounds channel_axis preprocessing ;;
  let _task := "cls" in
  model <-
    lift_result
      (new_AipImageCensor (AipModel._appId super) (AipModel._apiKey super)
         (AipModel._secretKey super)) ;;
  ret {| super := super; _task := _task; model := model |}.

Definition predictions (image : ndarray) : Method t pyobj :=
  let image_bytes := ndarray_to_bytes image in
  client <- self_field model ;;
  predictions <- in_world (antiPorn client image_bytes) ;;
  if dict_contains "result" predictions
  then lift_result (getitem (PyDict predictions) "result")
  else ret (PyDict predictions).

Definition model_task : Method t string := self_field _task.

End WithForeign.
End AipAntiPornModel.

(** ** [class GoogleCloudModel(Model)] *)

Module GoogleCloudModel.

Record t : Type := { base : Model.t }.

Definition __init__ (bounds : pyobj) (channel_axis : Z) (preprocessing : pyobj)
  : M World t :=
  base <- Model.__init__ bounds channel_axis preprocessing ;;
  credentials <- os_environ_get "GOOGLE_APPLICATION_CREDENTIALS" ;;
  match credentials with
  | Some _ => ret {| base := base |}
  | None =>
      raise (AssertionError
               " Credential GOOGLE_APPLICATION_CREDENTIALS needs to be set.")
  end.

End GoogleCloudModel.

(** ** [class GoogleSafeSearchModel(GoogleCloudModel)] *)

Module GoogleSafeSearchModel.
Section WithForeign.
Context {F : Foreign}.

Record t : Type := {
  super : GoogleCloudModel.t;
  _task : string;
  model : ImageAnnotatorClient
}.

Definition __init__ (bounds : pyobj) (channel_axis : Z) (preprocessing : pyobj)
  : M World t :=
  super <- GoogleCloudModel.__init__ bounds channel_axis preprocessing ;;
  let _task := "cls" in
  model <- new_ImageAnnotatorClient ;;
  ret {| super := super; _task := _task; model := model |}.

Definition predictions (image : ndarray) : Method t pyobj :=
  let image_bytes := ndarray_to_bytes image in
  let image := {| content := image_bytes |} in
  client <- self_field model ;;
  response <- in_world (safe_search_detection client image) ;;
  predictions <-
    lift_result (getitem (PyDict (protobuf_to_dict response))
                         "safe_search_annotation") ;;
  ret predictions.

Definition model_task : Method t string := self_field _task.

End WithForeign.
End GoogleSafeSearchModel.

(** ** [class GoogleObjectDetectionModel(GoogleCloudModel)] *)

Module GoogleObjectDetectionModel.
Section WithForeign.
Context {F : Foreign}.

Record t : Type := {
  super : GoogleCloudModel.t;
  model : ImageAnnotatorClient;
  _task : string
}.

Definition __init__ (bounds : pyobj) (channel_axis : Z) (preprocessing : pyobj)
  : M World t :=
  super <- GoogleCloudModel.__init__ bounds channel_axis preprocessing ;;
  model <- new_ImageAnnotatorClient ;;
  let _task := "det" in
  ret {| super := super; model := model; _task := _task |}.

Definition predictions (image : ndarray) : Method t pyobj :=
  let image_bytes := ndarray_to_bytes image in
  let image := {| content := image_bytes |} in
  client <- self_field model ;;
  response <-
    (whole <- in_world (object_localization client image) ;;
     lift_result (repeated_field "localized_object_annotations" whole)) ;;
  let predictions := [] in
  predictions <-
    for_each response
      (fun predictions object =>
         pb <- lift_result (as_message object) ;;
         ret (predictions ++ [PyDict (protobuf_to_dict pb)])%list)
      predictions ;;
  ret (PyList predictions).

Definition model_task : Method t string := self_field _task.

End WithForeign.
End GoogleObjectDetectionModel.

(** ** [class GoogleOCRModel(GoogleCloudModel)] *)

Module GoogleOCRModel.
Section WithForeign.
Context {F : Foreign}.

Record t : Type := {
  super : GoogleCloudModel.t;
  model : ImageAnnotatorClient
}.

Definition __init__ (bounds : pyobj) (channel_axis : Z) (preprocessing : pyobj)
  : M World t :=
  super <- GoogleCloudModel.__init__ bounds channel_axis preprocessing ;;
  model <- new_ImageAnnotatorClient ;;
  ret {| super := super; model := model |}.

Definition predictions (image : ndarray) : Method t pyobj :=
  let image_bytes := ndarray_to_bytes image in
  let image := {| content := image_bytes |} in
  client <- self_field model ;;
  response <-
    (whole <- in_world (object_localization client image) ;;
     lift_result (repeated_field "localized_object_annotations" whole)) ;;
  let predictions := [] in
  predictions <-
    for_each response
      (fun predictions object =>
         pb <- lift_result (as_message object) ;;
         ret (predictions ++ [PyDict (protobuf_to_dict pb)])%list)
      predictions ;;
  ret (PyList predictions).

End WithForeign.
End GoogleOCRModel.

(** ** [class OfflineAntiPornModel(Model)] *)

(** Building a [GeneralClassifyRequest].  [classify_type.add()] returns a
    reference to the element it appends: the reference is the element's
    index, and a write through it updates the request. *)
Definition new_GeneralClassifyRequest : GeneralClassifyRequest :=
  {| image := None; classify_type := [] |}.

Definition set_image (b : bytes) (r : GeneralClassifyRequest)
  : GeneralClassifyRequest :=
  {| image := Some b; classify_type := classify_type r |}.

Definition classify_type_add (r : GeneralClassifyRequest)
  : GeneralClassifyRequest * nat :=
  ({| image := image r;
      classify_type :=
        (classify_type r ++ [{| type_name := None; topnum := None |}])%list |},
   List.length (classify_type r)).

Fixpoint update_nth {A} (i : nat) (f : A -> A) (l : list A) : list A :=
  match l, i with
  | [], _ => []
  | x :: rest, O => f x :: rest
  | x :: rest, S j => x :: update_nth j f rest
  end.

Definition set_type_name (ref : nat) (name : string) (r : GeneralClassifyRequest)
  : GeneralClassifyRequest :=
  {| image := image r;
     classify_type :=
       update_nth ref
         (fun c => {| type_name := Some name; topnum := topnum c |})
         (classify_type r) |}.

Definition set_topnum (ref : nat) (n : Z) (r : GeneralClassifyRequest)
  : GeneralClassifyRequest :=
  {| image := image r;
     classify_type :=
       update_nth ref
         (fun c => {| type_name := type_name c; topnum := Some n |})
         (classify_type r) |}.

(** The dict [req_array] of [OfflineAntiPornModel.predictions]. *)
Definition req_array (logid : Z) (data : bytes) : pydict :=
  [ ("appid", PyStr "123456");
    ("logid", PyInt logid);
    ("format", PyStr "json");
    ("from", PyStr "test-python");
    ("cmdid", PyStr "123");
    ("clientip", PyStr "0.0.0.0");
    ("data", PyBytes (b64encode data)) ].

Module OfflineAntiPornModel.
Section WithForeign.
Context {F : Foreign}.

Record t : Type := {
  base : Model.t;
  url : string;
  _apiType : list string;
  _task : string
}.

Definition __init__ (url : string) (bounds : pyobj) (channel_axis : Z)
    (preprocessing : pyobj) : M World t :=
  base <- Model.__init__ bounds channel_axis preprocessing ;;
  ret {| base := base; url := url; _apiType := ["antiporn"]; _task := "cls" |}.

Definition model_task : Method t string := self_field _task.

(** [base64.b64decode(v)] on a Python value. *)
Definition py_b64decode (v : pyobj) : result bytes :=
  match v with
  | PyStr s =>
      if is_ascii s then
        match b64decode (list_byte_of_string s) with
        | Some b => Ok b
        | None => Raise (ValueError "Incorrect padding")
        end
      else Raise (ValueError "string argument should contain only ASCII characters")
  | PyBytes b =>
      match b64decode b with
      | Some b' => Ok b'
      | None => Raise (ValueError "Incorrect padding")
      end
  | _ => Raise TypeError
  end.

(** Lines 413 to 437 of [predictions]: from the image to the request that
    is about to be sent. *)
Definition build_request (image : ndarray) : Method t Request :=
  let image_data := ndarray_to_bytes image in
  let proto_data := new_GeneralClassifyRequest in
  let proto_data := set_image image_data proto_data in
  n <- (apiType <- self_field _apiType ;; ret (List.length apiType)) ;;
  (* [classifytype] is unbound until the loop body has run once *)
  loop <-
    for_each (seq 0 n)
      (fun (vars : GeneralClassifyRequest * option nat) i =>
         let (proto_data, classifytype) := classify_type_add (fst vars) in
         name <- (apiType <- self_field _apiType ;;
                  lift_result (list_getitem apiType i)) ;;
         ret (set_type_name classifytype name proto_data, Some classifytype))
      (proto_data, None) ;;
  let (proto_data, classifytype) := loop : GeneralClassifyRequest * option nat in
  proto_data <-
    match classifytype with
    | Some ref => ret (set_topnum ref 5 proto_data)
    | None => raise (UnboundLocalError "classifytype")
    end ;;
  let data := SerializeToString proto_data in

  logid <- in_world (random_randint 1000000 100000000) ;;
  let req_array := req_array logid data in
  req_data <- lift_result (encode_ascii (json_dumps (PyDict req_array))) ;;

  (* send request *)
  url <- self_field url ;;
  req <- lift_result (new_Request url req_data) ;;
  let req := add_header "Content-Type" "application/json" req in
  ret req.

(** Lines 443 to 449 of [predictions]: from the bytes read to the value
    returned. *)
Definition decode_response (response : bytes) : result pyobj :=
  response <-? match decode_utf8 response with
               | Some text => Ok text
               | None => Raise UnicodeError
               end ;;
  result <-? match json_loads response with
             | Some v => Ok v
             | None => Raise (ValueError "Expected object or value")
             end ;;
  encoded <-? getitem result "result" ;;
  raw <-? py_b64decode encoded ;;
  proto_result <-? match ParseFromString raw with
                   | Some pb => Ok pb
                   | None => Raise DecodeError
                   end ;;
  let result_json := protobuf_to_dict proto_result in
  result <-? setitem result "result" (PyDict result_json) ;;
  Ok result.

Definition predictions (image : ndarray) : Method t pyobj :=
  req <- build_request image ;;
  (* [response] is unbound when the [try] body raised *)
  response <-
    try_except
      (response <- in_world (urlopen_read req) ;; ret (Some response))
      (fun e => in_world (print (exn_str e)) ;;; ret None) ;;
  match response with
  | Some response => lift_result (decode_response response)
  | None => raise (UnboundLocalError "response")
  end.

End WithForeign.
End OfflineAntiPornModel.

(** ** [perceptron/utils/rngs.py] *)

Module Rngs.

(** The two algorithms: the stream of words [random.Random] gives once
    seeded with [s], and the one [numpy.random.RandomState] gives. *)
Class Algorithms : Type := {
  Random_stream : Z -> nat -> Z;
  RandomState_stream : Z -> nat -> Z
}.

Section WithAlgorithms.
Context {G : Algorithms}.

(** The module's two globals, [rng] and [nprng]. *)
Record State : Type := {
  rng : generator;
  nprng : generator
}.

(** [random.Random.seed(s)] takes any integer. *)
Definition Random_seed (s : Z) : result generator :=
  Ok {| stream := Random_stream s; position := 0 |}.

(** [numpy.random.RandomState.seed(s)] takes the integers that fit 32
    unsigned bits and raises [ValueError] on the others. *)
Definition RandomState_seed (s : Z) : result generator :=
  if (0 <=? s) && (s <=? 4294967295)
  then Ok {| stream := RandomState_stream s; position := 0 |}
  else Raise (ValueError "Seed must be between 0 and 2**32 - 1").

Definition rng_seed (seed : Z) : M State unit :=
  fun st =>
    match Random_seed seed with
    | Ok g => (Ok tt, {| rng := g; nprng := nprng st |})
    | Raise e => (Raise e, st)
    end.

Definition nprng_seed (seed : Z) : M State unit :=
  fun st =>
    match RandomState_seed seed with
    | Ok g => (Ok tt, {| rng := rng st; nprng := g |})
    | Raise e => (Raise e, st)
    end.

Definition set_seeds (seed : Z) : M State unit :=
  rng_seed seed ;;;
  nprng_seed seed.

(** Draws from the two globals. *)
Inductive source : Type := From_rng | From_nprng.

Definition draw_from {V} (src : source) (req : request V) : M State V :=
  fun st =>
    match src with
    | From_rng =>
        let (v, g) := draw req (rng st) in
        (Ok v, {| rng := g; nprng := nprng st |})
    | From_nprng =>
        let (v, g) := draw req (nprng st) in
        (Ok v, {| rng := rng st; nprng := g |})
    end.

Fixpoint draws {V} (reqs : list (source * request V)) : M State (list V) :=
  match reqs with
  | [] => ret []
  | (src, req) :: rest =>
      v <- draw_from src req ;;
      vs <- draws rest ;;
      ret (v :: vs)
  end.

End WithAlgorithms.
End Rngs.

(** ** A sample instance, to run the definitions on *)

(** Images are raw pixel bytes; the offline request is written in the
    protobuf wire format with [image = 1], [classify_type = 2] and, in a
    [ClassifyType], [type_name = 1], [topnum = 2]; a response is read
    without a schema, its fields named by their numbers; JSON is read for
    flat objects of strings and integers; text is ASCII; a url is taken
    when, unwrapped and without its fragment, it has a scheme. *)
Module Sample.

Definition byte_of_N (n : N) : byte :=
  match Byte.of_N n with
  | Some b => b
  | None => "000"%byte
  end.

Fixpoint varint (fuel : nat) (n : N) : bytes :=
  match fuel with
  | O => []
  | S fuel' =>
      if (n <? 128)%N then [byte_of_N n]
      else byte_of_N (128 + n mod 128) :: varint fuel' (n / 128)
  end.

Definition delimited (field : N) (payload : bytes) : bytes :=
  (varint 10 (field * 8 + 2) ++ varint 10 (N.of_nat (List.length payload))
     ++ payload)%list.

Definition scalar (field : N) (n : Z) : bytes :=
  (varint 10 (field * 8) ++ varint 10 (Z.to_N n))%list.

Definition wire_ClassifyType (c : ClassifyType) : bytes :=
  (match type_name c with
   | Some s => delimited 1 (list_byte_of_string s)
   | None => []
   end
   ++ match topnum c with
      | Some n => scalar 2 n
      | None => []
      end)%list.

Definition wire_GeneralClassifyRequest (r : GeneralClassifyRequest) : bytes :=
  (match image r with
   | Some b => delimited 1 b
   | None => []
   end
   ++ flat_map (fun c => delimited 2 (wire_ClassifyType c)) (classify_type r))%list.

Fixpoint read_varint (bs : bytes) (shift acc : N) : option (N * bytes) :=
  match bs with
  | [] => None
  | b :: rest =>
      let x := Byte.to_N b in
      if (x <? 128)%N then Some ((acc + x * 2 ^ shift)%N, rest)
      else read_varint rest (shift + 7)%N (acc + (x - 128) * 2 ^ shift)%N
  end.

Definition field_name (n : N) : string := NilZero.string_of_uint (N.to_uint n).

Fixpoint read_fields (fuel : nat) (bs : bytes) : option message :=
  match fuel, bs with
  | _, [] => Some []
  | O, _ => None
  | S fuel', _ =>
      match read_varint bs 0 0 with
      | None => None
      | Some (key, rest) =>
          match read_varint rest 0 0 with
          | None => None
          | Some (n, rest') =>
              if (key mod 8 =? 0)%N then
                option_map
                  (cons (field_name (key / 8), PbScalar (PyInt (Z.of_N n))))
                  (read_fields fuel' rest')
              else if ((key mod 8 =? 2) && (n <=? N.of_nat (List.length rest')))%N
              then
                option_map
                  (cons (field_name (key / 8),
                         PbScalar (PyBytes (firstn (N.to_nat n) rest'))))
                  (read_fields fuel' (skipn (N.to_nat n) rest'))
              else None
          end
      end
  end.

Definition b64_value (b : byte) : option N :=
  let x := Byte.to_N b in
  if ((65 <=? x) && (x <=? 90))%N then Some (x - 65)%N
  else if ((97 <=? x) && (x <=? 122))%N then Some (x - 71)%N
  else if ((48 <=? x) && (x <=? 57))%N then Some (x + 4)%N
  else if (x =? 43)%N then Some 62%N
  else if (x =? 47)%N then Some 63%N
  else None.

Fixpoint unbase64 (text : bytes) : option bytes :=
  match text with
  | [] => Some []
  | a :: b :: c :: d :: rest =>
      match b64_value a, b64_value b with
      | Some p, Some q =>
          let first := byte_of_N (p * 4 + q / 16) in
          match b64_value c, b64_value d, rest with
          | Some r, Some s, _ =>
              option_map
                (fun tail =>
                   first :: byte_of_N ((q mod 16) * 16 + r / 4)
                     :: byte_of_N ((r mod 4) * 64 + s) :: tail)
                (unbase64 rest)
          | Some r, None, [] =>
              if Byte.eqb d b64_pad
              then Some [first; byte_of_N ((q mod 16) * 16 + r / 4)]
              else None
          | None, None, [] =>
              if Byte.eqb c b64_pad && Byte.eqb d b64_pad
              then Some [first]
              else None
          | _, _, _ => None
          end
      | _, _ => None
      end
  | _ => None
  end%N.

Definition ascii_text (b : bytes) : option string :=
  if forallb (fun x => (Byte.to_N x <? 128)%N) b
  then Some (string_of_list_byte b)
  else None.

(** After an opening quote: the text up to the closing one. *)
Fixpoint read_string (s : string) : option (string * string) :=
  match s with
  | EmptyString => None
  | String c rest =>
      if Ascii.eqb c dquote then Some (EmptyString, rest)
      else if Ascii.eqb c "\"%char then None
      else
        match read_string rest with
        | Some (text, rest') => Some (String c text, rest')
        | None => None
        end
  end.

Definition digit_value (c : ascii) : option Z :=
  let n := N_of_ascii c in
  if ((48 <=? n) && (n <=? 57))%N then Some (Z.of_N n - 48) else None.

Fixpoint read_digits (s : string) (acc : Z) : Z * string :=
  match s with
  | EmptyString => (acc, s)
  | String c rest =>
      match digit_value c with
      | Some d => read_digits rest (10 * acc + d)
      | None => (acc, s)
      end
  end.

Definition read_value (s : string) : option (pyobj * string) :=
  match s with
  | EmptyString => None
  | String c rest =>
      if Ascii.eqb c dquote then
        match read_string rest with
        | Some (text, rest') => Some (PyStr text, rest')
        | None => None
        end
      else
        match digit_value c with
        | Some _ => let (n, rest') := read_digits s 0 in Some (PyInt n, rest')
        | None => None
        end
  end.

(** From a key's opening quote to the closing brace. *)
Fixpoint read_members (fuel : nat) (s : string) : option pydict :=
  match fuel, s with
  | S fuel', String q rest =>
      if Ascii.eqb q dquote then
        match read_string rest with
        | Some (key, String colon rest') =>
            if Ascii.eqb colon ":"%char then
              match read_value rest' with
              | Some (v, String sep rest'') =>
                  if Ascii.eqb sep ","%char then
                    option_map (cons (key, v)) (read_members fuel' rest'')
                  else if Ascii.eqb sep "}"%char then
                    match rest'' with
                    | EmptyString => Some [(key, v)]
                    | _ => None
                    end
                  else None
              | _ => None
              end
            else None
        | _ => None
        end
      else None
  | _, _ => None
  end.

Definition read_object (s : string) : option pyobj :=
  match s with
  | String open rest =>
      if Ascii.eqb open "{"%char
      then option_map PyDict (read_members (String.length s) rest)
      else None
  | EmptyString => None
  end.

(** [urllib.parse.unwrap]: the url stripped, without a pair of angle
    brackets around it and without a leading [URL:]. *)
Definition unwrap (url : string) : string :=
  let url := str_strip url in
  let url :=
    match String.get 0 url, String.get (String.length url - 1) url with
    | Some first, Some final =>
        if Ascii.eqb first "<"%char && Ascii.eqb final ">"%char
        then str_strip (String.substring 1 (String.length url - 2) url)
        else url
    | _, _ => url
    end in
  if String.prefix "URL:" url
  then str_strip (String.substring 4 (String.length url - 4) url)
  else url.

(** The part before the last [#], if there is one. *)
Fixpoint before_last_hash (s : string) : option string :=
  match s with
  | EmptyString => None
  | String c rest =>
      match before_last_hash rest with
      | Some path => Some (String c path)
      | None => if Ascii.eqb c "#"%char then Some EmptyString else None
      end
  end.

Definition without_fragment (url : string) : string :=
  match before_last_hash url with
  | Some path => path
  | None => url
  end.

(** The characters before the first [:], if no [/] comes before it. *)
Fixpoint scheme_run (s : string) : option string :=
  match s with
  | EmptyString => None
  | String c rest =>
      if Ascii.eqb c ":"%char then Some EmptyString
      else if Ascii.eqb c "/"%char then None
      else option_map (String c) (scheme_run rest)
  end.

(** [urllib.parse._splittype]: the scheme, which is not empty. *)
Definition splittype (url : string) : option string :=
  match scheme_run url with
  | Some EmptyString => None
  | Some scheme => Some scheme
  | None => None
  end.

(** [Request.full_url]: the url without an empty fragment. *)
Definition shown_url (url : string) : string :=
  match before_last_hash url with
  | Some path =>
      if (String.length path + 1 =? String.length url)%nat then path else url
  | None => url
  end.

(** What [Request.__init__] makes of a url: [unwrap], [_splittag],
    [_splittype], and [ValueError("unknown url type: %r" % self.full_url)]
    without a scheme (the [repr] is written for a url without a quote or a
    backslash). *)
Definition refuses (url : string) : option string :=
  match splittype (without_fragment (unwrap url)) with
  | Some _ => None
  | None => Some ("unknown url type: '" ++ shown_url (unwrap url) ++ "'")
  end.

Definition foreign : Foreign := {|
  ndarray := bytes;
  ndarray_to_bytes := fun pixels => pixels;
  SerializeToString := wire_GeneralClassifyRequest;
  ParseFromString := fun raw => read_fields (List.length raw) raw;
  json_loads := read_object;
  b64decode := unbase64;
  decode_utf8 := ascii_text;
  Request_refuses := refuses
|}.

End Sample.

(** ** Shapes of returned values *)

Definition is_dict (v : pyobj) : bool :=
  match v with
  | PyDict _ => true
  | _ => false
  end.

(** "A list whose elements are dictionaries". *)
Definition is_list_of_dicts (v : pyobj) : bool :=
  match v with
  | PyList items => forallb is_dict items
  | _ => false
  end.

Definition has_keys (keys : list string) (v : pyobj) : bool :=
  match v with
  | PyDict d => forallb (fun k => dict_contains k d) keys
  | _ => false
  end.

(** The shape the docstring of [AipAntiPornModel.predictions] gives: a list
    of dicts with the keys ['class_name'] and ['probability']. *)
Definition antiporn_shape (v : pyobj) : bool :=
  match v with
  | PyList items => forallb (has_keys ["class_name"; "probability"]) items
  | _ => false
  end.

(** A method leaves its receiver as it found it, however it ends. *)
Definition keeps_self {Self A} (m : Method Self A) : Prop :=
  forall (self : Self) (w : World), fst (snd (m (self, w))) = self.

(** A computation leaves the state as it found it, however it ends. *)
Definition keeps_state {St A} (m : M St A) : Prop :=
  forall s : St, snd (m s) = s.

(** The bodies of the HTTP requests in a log, oldest first. *)
Definition sent_bodies (log : list call) : list bytes :=
  flat_map (fun c => match c with
                     | Call_urlopen req => [data req]
                     | _ => []
                     end) log.

(** The calls a run added to the log. *)
Definition issued_by {Self A} (m : Method Self A) (self : Self) (w : World)
  : list call :=
  skipn (List.length (calls w)) (calls (snd (snd (m (self, w))))).


(** The loop of [GoogleObjectDetectionModel.predictions] and of
    [GoogleOCRModel.predictions], as a function of the annotations. *)
Fixpoint annotation_dicts (items : list pbvalue) (acc : list pyobj)
  : result (list pyobj) :=
  match items with
  | [] => Ok acc
  | item :: rest =>
      match as_message item with
      | Ok pb => annotation_dicts rest (acc ++ [PyDict (protobuf_to_dict pb)])
      | Raise e => Raise e
      end
  end.

(** ** Sample worlds *)

Module SampleWorld.

Definition antiporn_answer : pydict :=
  [ ("conclusion", PyStr "normal");
    ("log_id", PyInt 1544174783);
    ("result",
     PyList [ PyDict [("class_name", PyStr "normal"); ("probability", PyFloat "0.98")];
              PyDict [("class_name", PyStr "porn"); ("probability", PyFloat "0.02")] ]) ].

Definition safe_search_answer : message :=
  [ ("safe_search_annotation",
     PbMessage [ ("adult", PbScalar (PyInt 1)); ("spoof", PbScalar (PyInt 1));
                 ("medical", PbScalar (PyInt 2)); ("violence", PbScalar (PyInt 1));
                 ("racy", PbScalar (PyInt 3)) ]) ].

Definition localization_answer : message :=
  [ ("localized_object_annotations",
     PbRepeated
       [ PbMessage [ ("mid", PbScalar (PyStr "/m/01yrx")); ("name", PbScalar (PyStr "Cat"));
                     ("score", PbScalar (PyFloat "0.93")) ];
         PbMessage [ ("mid", PbScalar (PyStr "/m/0bt9lr")); ("name", PbScalar (PyStr "Dog"));
                     ("score", PbScalar (PyFloat "0.81")) ] ]) ].

Definition service_url : string := "http://127.0.0.1:8080/classify".

Definition offline_answer : bytes :=
  list_byte_of_string
    (json_dumps (PyDict [("err_no", PyInt 0); ("result", PyStr "CAESA2FiYw==")])).

(** The offline service answers at [service_url]; nothing listens
    elsewhere. *)
Definition services : Remote := {|
  antiPorn_reply := fun _ _ _ => Answer antiporn_answer;
  safe_search_detection_reply := fun _ _ _ => Answer safe_search_answer;
  object_localization_reply := fun _ _ _ => Answer localization_answer;
  urlopen_reply := fun _ req =>
    if String.eqb (full_url req) service_url
    then Answer offline_answer
    else Fault "<urlopen error [Errno 111] Connection refused>";
  annotator_client_reply := fun _ => Answer tt
|}.

Definition world : World := {|
  environ := [("HOME", "/root"); ("GOOGLE_APPLICATION_CREDENTIALS", "/root/key.json")];
  random := {| stream := fun n => 7919 * Z.of_nat n + 104729; position := 0 |};
  stdout := [];
  calls := [];
  clients := 0;
  remote := services
|}.

Definition pixels : bytes := list_byte_of_string "img".

Definition base : Model.t :=
  {| Model._bounds := default_bounds;
     Model._channel_axis := default_channel_axis;
     Model._preprocessing := default_preprocessing |}.

Definition offline (url : string) : OfflineAntiPornModel.t :=
  {| OfflineAntiPornModel.base := base;
     OfflineAntiPornModel.url := url;
     OfflineAntiPornModel._apiType := ["antiporn"];
     OfflineAntiPornModel._task := "cls" |}.

Definition credential : pyobj :=
  PyTuple [PyStr "11111111"; PyStr "api-key"; PyStr "secret-key"].

Definition censor : AipImageCensor :=
  {| censor_appId := PyStr "11111111"; censor_apiKey := PyStr "api-key";
     censor_secretKey := PyStr "secret-key" |}.

Definition aip : AipAntiPornModel.t :=
  {| AipAntiPornModel.super :=
       {| AipModel.base := base; AipModel._appId := PyStr "11111111";
          AipModel._apiKey := PyStr "api-key";
          AipModel._secretKey := PyStr "secret-key" |};
     AipAntiPornModel._task := "cls";
     AipAntiPornModel.model := censor |}.

Definition safe_search : GoogleSafeSearchModel.t :=
  {| GoogleSafeSearchModel.super := {| GoogleCloudModel.base := base |};
     GoogleSafeSearchModel._task := "cls";
     GoogleSafeSearchModel.model := {| annotator_id := 0 |} |}.

(** Two stand-in algorithms: linear congruential streams. *)
Definition algorithms : Rngs.Algorithms := {|
  Rngs.Random_stream := fun s n => (1103515245 * (s + Z.of_nat n) + 12345) mod 2 ^ 31;
  Rngs.RandomState_stream := fun s n => (69069 * (s + Z.of_nat n) + 1) mod 2 ^ 32
|}.

(** The module's globals as two imports of it found them: seeded from the
    entropy of the moment. *)
Definition imported (entropy : Z) : Rngs.State :=
  {| Rngs.rng := {| stream := fun n => entropy + Z.of_nat n; position := 0 |};
     Rngs.nprng := {| stream := fun n => 2 * entropy + Z.of_nat n; position := 0 |} |}.

End SampleWorld.

(** ** The offline exchange, step by step *)

Section Exchange.
Context {F : Foreign}.

(** The request message for an image: the image bytes and one
    [classify_type] entry. *)
Definition antiporn_request (image : ndarray) : GeneralClassifyRequest :=
  {| image := Some (ndarray_to_bytes image);
     classify_type := [ {| type_name := Some "antiporn"; topnum := Some 5 |} ] |}.

(** The [logid] the next call of [random.randint] gives in a world. *)
Definition next_logid (w : World) : Z :=
  fst (draw (randint_request 1000000 100000000) (random w)).

(** The world once that [logid] is drawn. *)
Definition after_logid (w : World) : World :=
  with_random (snd (draw (randint_request 1000000 100000000) (random w))) w.

(** The HTTP request that carries an image under a [logid]. *)
Definition post (url : string) (image : ndarray) (logid : Z) : Request :=
  {| full_url := url;
     data :=
       list_byte_of_string
         (json_dumps
            (PyDict (req_array logid (SerializeToString (antiporn_request image)))));
     headers := [("Content-Type", "application/json")] |}.

End Exchange.

(** ** The offline request for any list of tasks *)

(** An entry of [classify_type] as the loop of [predictions] writes it, and
    as the assignment after the loop leaves the last one. *)
Definition plain_type (name : string) : ClassifyType :=
  {| type_name := Some name; topnum := None |}.

Definition top5_type (name : string) : ClassifyType :=
  {| type_name := Some name; topnum := Some 5 |}.

Section GeneralExchange.
Context {F : Foreign}.

(** The request message for the tasks [init ++ [final]]. *)
Definition request_for (image : ndarray) (init : list string) (final : string)
  : GeneralClassifyRequest :=
  {| image := Some (ndarray_to_bytes image);
     classify_type := (map plain_type init ++ [top5_type final])%list |}.

(** The HTTP request that carries a request message under a [logid]. *)
Definition post_of (url : string) (proto_data : GeneralClassifyRequest)
    (logid : Z) : Request :=
  {| full_url := url;
     data :=
       list_byte_of_string
         (json_dumps (PyDict (req_array logid (SerializeToString proto_data))));
     headers := [("Content-Type", "application/json")] |}.

End GeneralExchange.

(** ** More sample worlds *)

Module SampleReplies.

(** The sample world with an offline service that answers [body] to every
    request. *)
Definition answering (body : bytes) : World :=
  {| environ := environ SampleWorld.world;
     random := random SampleWorld.world;
     stdout := [];
     calls := [];
     clients := 0;
     remote :=
       {| antiPorn_reply := antiPorn_reply SampleWorld.services;
          safe_search_detection_reply :=
            safe_search_detection_reply SampleWorld.services;
          object_localization_reply :=
            object_localization_reply SampleWorld.services;
          urlopen_reply := fun _ _ => Answer body;
          annotator_client_reply := fun _ => Answer tt |} |}.

(** The sample world with vendors that are down, and no credentials in the
    environment. *)
Definition unreachable : World :=
  {| environ := [("HOME", "/root")];
     random := random SampleWorld.world;
     stdout := [];
     calls := [];
     clients := 0;
     remote :=
       {| antiPorn_reply := fun _ _ _ => Fault "connection timed out";
          safe_search_detection_reply := fun _ _ _ => Fault "503 unavailable";
          object_localization_reply := fun _ _ _ => Fault "503 unavailable";
          urlopen_reply := fun _ _ => Fault "connection timed out";
          annotator_client_reply := fun _ => Answer tt |} |}.

(** A vision response that carries an error and no annotation. *)
Definition error_answer : message :=
  [ ("error", PbMessage [ ("code", PbScalar (PyInt 3));
                          ("message", PbScalar (PyStr "Bad image data.")) ]) ].

(** The sample world with a vision service that answers [response]. *)
Definition vision_answering (response : message) : World :=
  {| environ := environ SampleWorld.world;
     random := random SampleWorld.world;
     stdout := [];
     calls := [];
     clients := 0;
     remote :=
       {| antiPorn_reply := antiPorn_reply SampleWorld.services;
          safe_search_detection_reply := fun _ _ _ => Answer response;
          object_localization_reply := fun _ _ _ => Answer response;
          urlopen_reply := urlopen_reply SampleWorld.services;
          annotator_client_reply := fun _ => Answer tt |} |}.

Definition offline_with (tasks : list string) : OfflineAntiPornModel.t :=
  {| OfflineAntiPornModel.base := SampleWorld.base;
     OfflineAntiPornModel.url := SampleWorld.service_url;
     OfflineAntiPornModel._apiType := tasks;
     OfflineAntiPornModel._task := "cls" |}.

Definition object_detection : GoogleObjectDetectionModel.t :=
  {| GoogleObjectDetectionModel.super := {| GoogleCloudModel.base := SampleWorld.base |};
     GoogleObjectDetectionModel.model := {| annotator_id := 0 |};
     GoogleObjectDetectionModel._task := "det" |}.

Definition ocr : GoogleOCRModel.t :=
  {| GoogleOCRModel.super := {| GoogleCloudModel.base := SampleWorld.base |};
     GoogleOCRModel.model := {| annotator_id := 0 |} |}.

End SampleReplies.

(** * Properties *)

(** ** Text: what is sent is ASCII *)

Lemma is_ascii_app (a b : string) :
  is_ascii (a ++ b) = is_ascii a && is_ascii b.
Proof.
  induction a as [|c a IH]; simpl.
  - reflexivity.
  - rewrite IH. apply andb_assoc.
Qed.

Lemma json_escape_char_ascii (c : ascii) : is_ascii (json_escape_char c) = true.
Proof.
  destruct c as [[] [] [] [] [] [] [] []]; reflexivity.
Qed.

Lemma json_escape_ascii (s : string) : is_ascii (json_escape s) = true.
Proof.
  induction s as [|c s IH]; simpl.
  - reflexivity.
  - rewrite is_ascii_app, json_escape_char_ascii, IH. reflexivity.
Qed.

Lemma json_quote_ascii (s : string) : is_ascii (json_quote s) = true.
Proof.
  unfold json_quote. simpl.
  rewrite is_ascii_app, json_escape_ascii. reflexivity.
Qed.

Lemma string_of_uint_ascii (d : Decimal.uint) :
  is_ascii (NilEmpty.string_of_uint d) = true.
Proof.
  induction d; simpl; try rewrite IHd; reflexivity.
Qed.

Lemma json_int_ascii (z : Z) : is_ascii (json_int z) = true.
Proof.
  unfold json_int, NilZero.string_of_int, NilZero.string_of_uint.
  destruct (Z.to_int z) as [d|d]; destruct d; simpl;
    try rewrite string_of_uint_ascii; reflexivity.
Qed.

Lemma req_array_ascii (logid : Z) (payload : bytes) :
  encode_ascii (json_dumps (PyDict (req_array logid payload)))
  = Ok (list_byte_of_string (json_dumps (PyDict (req_array logid payload)))).
Proof.
  unfold encode_ascii.
  assert (H : is_ascii (json_dumps (PyDict (req_array logid payload))) = true).
  { cbn [json_dumps req_array map join fst snd].
    repeat (rewrite is_ascii_app
            || rewrite json_quote_ascii
            || rewrite json_int_ascii
            || (progress cbn [is_ascii is_ascii_char andb])).
    reflexivity. }
  rewrite H. reflexivity.
Qed.

(** [randint] stays in the closed range it is given. *)
Lemma randint_request_range (a b : Z) (words : nat -> Z) :
  a <= b -> a <= fst (randint_request a b words) <= b.
Proof.
  intros Hab. unfold randint_request. simpl.
  pose proof (Z.mod_pos_bound (words 0%nat) (b - a + 1)). lia.
Qed.

(** ** The receiver is only read *)

Create HintDb frame.

Lemma keeps_self_ret {Self A} (a : A) : keeps_self (Self := Self) (ret a).
Proof. intros self w. reflexivity. Qed.

Lemma keeps_self_raise {Self A} (e : exn) :
  keeps_self (Self := Self) (A := A) (raise e).
Proof. intros self w. reflexivity. Qed.

Lemma keeps_self_lift_result {Self A} (r : result A) :
  keeps_self (Self := Self) (lift_result r).
Proof. intros self w. reflexivity. Qed.

Lemma keeps_self_self_field {Self A} (field : Self -> A) :
  keeps_self (self_field field).
Proof. intros self w. reflexivity. Qed.

Lemma keeps_self_in_world {Self A} (m : M World A) :
  keeps_self (Self := Self) (in_world m).
Proof.
  intros self w. unfold in_world. simpl. destruct (m w). reflexivity.
Qed.

Lemma keeps_self_bind {Self A B} (m : Method Self A) (k : A -> Method Self B) :
  keeps_self m -> (forall a, keeps_self (k a)) -> keeps_self (bind m k).
Proof.
  intros Hm Hk self w. unfold bind.
  specialize (Hm self w).
  destruct (m (self, w)) as [[a|e] [self' w']]; simpl in Hm; subst self'.
  - apply Hk.
  - reflexivity.
Qed.

Lemma keeps_self_try_except {Self A} (m : Method Self A) (h : exn -> Method Self A) :
  keeps_self m -> (forall e, keeps_self (h e)) -> keeps_self (try_except m h).
Proof.
  intros Hm Hh self w. unfold try_except.
  specialize (Hm self w).
  destruct (m (self, w)) as [[a|e] [self' w']]; simpl in Hm; subst self'.
  - reflexivity.
  - apply Hh.
Qed.

Lemma keeps_self_for_each {Self A B} (items : list A)
    (body : B -> A -> Method Self B) :
  (forall acc x, keeps_self (body acc x)) ->
  forall acc, keeps_self (for_each items body acc).
Proof.
  intros Hbody. induction items as [|x items IH]; intros acc; simpl.
  - apply keeps_self_ret.
  - apply keeps_self_bind; [apply Hbody | exact IH].
Qed.

#[local] Hint Resolve keeps_self_ret keeps_self_raise keeps_self_lift_result
  keeps_self_self_field keeps_self_in_world keeps_self_bind
  keeps_self_try_except keeps_self_for_each : frame.

Ltac frame :=
  repeat (intros;
          match goal with
          | |- keeps_self (match ?x with _ => _ end) => destruct x
          | |- keeps_self (if ?b then _ else _) => destruct b
          | |- keeps_self (let (_, _) := ?p in _) => destruct p
          | |- keeps_self (bind _ _) => apply keeps_self_bind
          | |- keeps_self (try_except _ _) => apply keeps_self_try_except
          | |- keeps_self (for_each _ _ _) => apply keeps_self_for_each
          | |- keeps_self _ => solve [auto with frame]
          end).

Section Frames.
Context {F : Foreign}.

Lemma AipAntiPornModel_predictions_frame (image : ndarray) :
  keeps_self (AipAntiPornModel.predictions image).
Proof. unfold AipAntiPornModel.predictions. frame. Qed.

Lemma GoogleSafeSearchModel_predictions_frame (image : ndarray) :
  keeps_self (GoogleSafeSearchModel.predictions image).
Proof. unfold GoogleSafeSearchModel.predictions. frame. Qed.

Lemma GoogleObjectDetectionModel_predictions_frame (image : ndarray) :
  keeps_self (GoogleObjectDetectionModel.predictions image).
Proof. unfold GoogleObjectDetectionModel.predictions. frame. Qed.

Lemma GoogleOCRModel_predictions_frame (image : ndarray) :
  keeps_self (GoogleOCRModel.predictions image).
Proof. unfold GoogleOCRModel.predictions. frame. Qed.

Lemma OfflineAntiPornModel_build_request_frame (image : ndarray) :
  keeps_self (OfflineAntiPornModel.build_request image).
Proof. unfold OfflineAntiPornModel.build_request. frame. Qed.

Lemma OfflineAntiPornModel_predictions_frame (image : ndarray) :
  keeps_self (OfflineAntiPornModel.predictions image).
Proof.
  unfold OfflineAntiPornModel.predictions.
  apply keeps_self_bind; [apply OfflineAntiPornModel_build_request_frame|].
  frame.
Qed.

(** C5: every [predictions] method leaves the model object as it found it:
    for every instance, every image and every world, and whether the call
    returns or raises, each field of the instance ([url], [_apiType],
    [_task] and the inherited [bounds], [channel_axis] and [preprocessing]
    configuration for [OfflineAntiPornModel]) has the value it had before
    the call. *)
Theorem C5_predictions_keep_the_model :
  (forall (m : AipAntiPornModel.t) (image : ndarray) (w : World),
      fst (snd (AipAntiPornModel.predictions image (m, w))) = m)
  /\ (forall (m : GoogleSafeSearchModel.t) (image : ndarray) (w : World),
      fst (snd (GoogleSafeSearchModel.predictions image (m, w))) = m)
  /\ (forall (m : GoogleObjectDetectionModel.t) (image : ndarray) (w : World),
      fst (snd (GoogleObjectDetectionModel.predictions image (m, w))) = m)
  /\ (forall (m : GoogleOCRModel.t) (image : ndarray) (w : World),
      fst (snd (GoogleOCRModel.predictions image (m, w))) = m)
  /\ (forall (m : OfflineAntiPornModel.t) (image : ndarray) (w : World),
      let m' := fst (snd (OfflineAntiPornModel.predictions image (m, w))) in
      m' = m
      /\ OfflineAntiPornModel.url m' = OfflineAntiPornModel.url m
      /\ OfflineAntiPornModel._apiType m' = OfflineAntiPornModel._apiType m
      /\ OfflineAntiPornModel._task m' = OfflineAntiPornModel._task m
      /\ OfflineAntiPornModel.base m' = OfflineAntiPornModel.base m).
Proof.
  repeat split; intros; try subst m'.
  - apply AipAntiPornModel_predictions_frame.
  - apply GoogleSafeSearchModel_predictions_frame.
  - apply GoogleObjectDetectionModel_predictions_frame.
  - apply GoogleOCRModel_predictions_frame.
  - apply OfflineAntiPornModel_predictions_frame.
  - now rewrite OfflineAntiPornModel_predictions_frame.
  - now rewrite OfflineAntiPornModel_predictions_frame.
  - now rewrite OfflineAntiPornModel_predictions_frame.
  - now rewrite OfflineAntiPornModel_predictions_frame.
Qed.

End Frames.

(** ** The offline client *)

Section Offline.
Context {F : Foreign}.

(** A model as [OfflineAntiPornModel.__init__] leaves it. *)
Lemma OfflineAntiPornModel_init_run (url : string) (bounds : pyobj)
    (channel_axis : Z) (preprocessing : pyobj) (w : World) :
  OfflineAntiPornModel.__init__ url bounds channel_axis preprocessing w
  = (Ok {| OfflineAntiPornModel.base :=
             {| Model._bounds := bounds; Model._channel_axis := channel_axis;
                Model._preprocessing := preprocessing |};
           OfflineAntiPornModel.url := url;
           OfflineAntiPornModel._apiType := ["antiporn"];
           OfflineAntiPornModel._task := "cls" |}, w).
Proof. reflexivity. Qed.

(** With the one task the constructor sets and a url that [Request] takes,
    the request is built without an error and is [post] of the [logid]
    drawn. *)
Lemma OfflineAntiPornModel_build_request_run (m : OfflineAntiPornModel.t) (image : ndarray) (w : World) :
  OfflineAntiPornModel._apiType m = ["antiporn"] ->
  Request_refuses (OfflineAntiPornModel.url m) = None ->
  OfflineAntiPornModel.build_request image (m, w)
  = (Ok (post (OfflineAntiPornModel.url m) image (next_logid w)),
     (m, after_logid w)).
Proof.
  intros Hm Hurl. destruct m as [base url apiType task].
  cbn [OfflineAntiPornModel._apiType OfflineAntiPornModel.url] in Hm, Hurl.
  subst apiType.
  destruct w as [env gen out log count services].
  cbv -[json_dumps encode_ascii draw randint_request req_array
        list_byte_of_string b64encode Request_refuses].
  destruct (draw (randint_request 1000000 100000000) gen) as [logid g].
  rewrite req_array_ascii, Hurl. reflexivity.
Qed.

(** With a url that [Request] does not take, its [ValueError] ends the
    call: the [logid] is drawn, nothing is sent. *)
Lemma OfflineAntiPornModel_build_request_refused (m : OfflineAntiPornModel.t)
    (image : ndarray) (w : World) (msg : string) :
  OfflineAntiPornModel._apiType m = ["antiporn"] ->
  Request_refuses (OfflineAntiPornModel.url m) = Some msg ->
  OfflineAntiPornModel.build_request image (m, w)
  = (Raise (ValueError msg), (m, after_logid w)).
Proof.
  intros Hm Hurl. destruct m as [base url apiType task].
  cbn [OfflineAntiPornModel._apiType OfflineAntiPornModel.url] in Hm, Hurl.
  subst apiType.
  destruct w as [env gen out log count services].
  cbv -[json_dumps encode_ascii draw randint_request req_array
        list_byte_of_string b64encode Request_refuses].
  destruct (draw (randint_request 1000000 100000000) gen) as [logid g].
  rewrite req_array_ascii, Hurl. reflexivity.
Qed.

(** The whole call, by what the service does with the request. *)
Lemma OfflineAntiPornModel_predictions_run (m : OfflineAntiPornModel.t) (image : ndarray) (w : World) :
  OfflineAntiPornModel._apiType m = ["antiporn"] ->
  Request_refuses (OfflineAntiPornModel.url m) = None ->
  let req := post (OfflineAntiPornModel.url m) image (next_logid w) in
  let sent := with_calls (calls w ++ [Call_urlopen req])%list (after_logid w) in
  OfflineAntiPornModel.predictions image (m, w)
  = match urlopen_reply (remote w) (List.length (calls w)) req with
    | Answer response =>
        (OfflineAntiPornModel.decode_response response, (m, sent))
    | Fault msg =>
        (Raise (UnboundLocalError "response"),
         (m, with_stdout (stdout w ++ [msg])%list sent))
    end.
Proof.
  intros Hm Hurl req sent.
  unfold OfflineAntiPornModel.predictions, bind.
  rewrite (OfflineAntiPornModel_build_request_run m image w Hm Hurl). fold req.
  unfold try_except, bind, in_world, urlopen_read, issue. simpl.
  destruct (urlopen_reply (remote w) (List.length (calls w)) req); reflexivity.
Qed.

Lemma OfflineAntiPornModel_predictions_refused (m : OfflineAntiPornModel.t)
    (image : ndarray) (w : World) (msg : string) :
  OfflineAntiPornModel._apiType m = ["antiporn"] ->
  Request_refuses (OfflineAntiPornModel.url m) = Some msg ->
  OfflineAntiPornModel.predictions image (m, w)
  = (Raise (ValueError msg), (m, after_logid w)).
Proof.
  intros Hm Hurl.
  unfold OfflineAntiPornModel.predictions, bind.
  rewrite (OfflineAntiPornModel_build_request_refused m image w Hm Hurl).
  reflexivity.
Qed.

End Offline.

Section OfflineClaims.
Context {F : Foreign}.

Lemma skipn_length_app {A} (l extra : list A) :
  skipn (List.length l) (l ++ extra)%list = extra.
Proof.
  induction l as [|x l IH]; simpl; [reflexivity | exact IH].
Qed.

(** What a returned value of [decode_response] went through. *)
Lemma decode_response_ok (response : bytes) (v : pyobj) :
  OfflineAntiPornModel.decode_response response = Ok v ->
  exists text d encoded raw pb,
    decode_utf8 response = Some text
    /\ json_loads text = Some (PyDict d)
    /\ dict_get "result" d = Some encoded
    /\ OfflineAntiPornModel.py_b64decode encoded = Ok raw
    /\ ParseFromString raw = Some pb
    /\ v = PyDict (dict_set "result" (PyDict (protobuf_to_dict pb)) d).
Proof.
  unfold OfflineAntiPornModel.decode_response, and_then.
  destruct (decode_utf8 response) as [text|] eqn:Htext; [|discriminate].
  destruct (json_loads text) as [parsed|] eqn:Hloads; [|discriminate].
  destruct parsed as [ | | | | | | | |d]; try discriminate.
  cbn [getitem setitem].
  destruct (dict_get "result" d) as [encoded|] eqn:Hget; [|discriminate].
  destruct (OfflineAntiPornModel.py_b64decode encoded) as [raw|] eqn:Hraw;
    [|discriminate].
  destruct (ParseFromString raw) as [pb|] eqn:Hpb; [|discriminate].
  intros Hv. injection Hv as <-.
  exists text, d, encoded, raw, pb. repeat split; assumption.
Qed.

(** A response that decodes at every step is returned with its ['result']
    replaced. *)
Lemma decode_response_run (response : bytes) (text : string) (d : pydict)
    (encoded : pyobj) (raw : bytes) (pb : message) :
  decode_utf8 response = Some text ->
  json_loads text = Some (PyDict d) ->
  dict_get "result" d = Some encoded ->
  OfflineAntiPornModel.py_b64decode encoded = Ok raw ->
  ParseFromString raw = Some pb ->
  OfflineAntiPornModel.decode_response response
  = Ok (PyDict (dict_set "result" (PyDict (protobuf_to_dict pb)) d)).
Proof.
  intros Htext Hloads Hget Hraw Hpb.
  unfold OfflineAntiPornModel.decode_response, and_then.
  rewrite Htext, Hloads. cbn [getitem]. rewrite Hget, Hraw, Hpb.
  reflexivity.
Qed.

(** C1: for every image, [OfflineAntiPornModel.predictions] on a model the
    constructor built, with a url that [urllib.request.Request] takes, sends
    one POST to the model's url whose body is the ASCII encoding of the JSON
    text of an object whose ['data'] field is the base64 encoding of the
    serialized [GeneralClassifyRequest]; that request holds the image bytes
    in [image] and exactly one [classify_type] entry, with [type_name]
    ['antiporn'] and [topnum] 5; and the method returns a value exactly when
    the response decodes, the value being the parsed response JSON with its
    ['result'] entry replaced by the dict form of the
    [GeneralClassifyResponse] parsed from the base64 decoding of that entry.
    With a url that [Request] does not take there is no POST: its
    [ValueError] ends the call. *)
Theorem C1_offline_request_and_response :
  forall (url : string) (bounds : pyobj) (channel_axis : Z)
         (preprocessing : pyobj) (image : ndarray) (w0 : World),
  exists (m : OfflineAntiPornModel.t) (w : World),
    OfflineAntiPornModel.__init__ url bounds channel_axis preprocessing w0
    = (Ok m, w)
    /\ let out := OfflineAntiPornModel.predictions image (m, w) in
       match Request_refuses url with
       | Some msg =>
           fst out = Raise (ValueError msg)
           /\ calls (snd (snd out)) = calls w
       | None =>
           exists (proto_data : GeneralClassifyRequest) (obj : pydict)
                  (req : Request),
             proto_data
             = {| image := Some (ndarray_to_bytes image);
                  classify_type :=
                    [ {| type_name := Some "antiporn"; topnum := Some 5 |} ] |}
             /\ dict_get "data" obj
                = Some (PyBytes (b64encode (SerializeToString proto_data)))
             /\ encode_ascii (json_dumps (PyDict obj)) = Ok (data req)
             /\ full_url req = url
             /\ calls (snd (snd out)) = (calls w ++ [Call_urlopen req])%list
             /\ (forall response text d encoded raw pb,
                    urlopen_reply (remote w) (List.length (calls w)) req
                    = Answer response ->
                    decode_utf8 response = Some text ->
                    json_loads text = Some (PyDict d) ->
                    dict_get "result" d = Some encoded ->
                    OfflineAntiPornModel.py_b64decode encoded = Ok raw ->
                    ParseFromString raw = Some pb ->
                    fst out
                    = Ok (PyDict (dict_set "result"
                                    (PyDict (protobuf_to_dict pb)) d)))
             /\ (forall v,
                    fst out = Ok v ->
                    exists response text d encoded raw pb,
                      urlopen_reply (remote w) (List.length (calls w)) req
                      = Answer response
                      /\ decode_utf8 response = Some text
                      /\ json_loads text = Some (PyDict d)
                      /\ dict_get "result" d = Some encoded
                      /\ OfflineAntiPornModel.py_b64decode encoded = Ok raw
                      /\ ParseFromString raw = Some pb
                      /\ v = PyDict (dict_set "result"
                                       (PyDict (protobuf_to_dict pb)) d))
       end.
Proof.
  intros url bounds channel_axis preprocessing image w0.
  rewrite OfflineAntiPornModel_init_run.
  eexists. exists w0. split; [reflexivity|].
  intros out. subst out.
  destruct (Request_refuses url) as [refusal|] eqn:Hurl.
  - rewrite (@OfflineAntiPornModel_predictions_refused _ _ image w0 refusal)
      by (reflexivity || exact Hurl).
    split; reflexivity.
  - rewrite OfflineAntiPornModel_predictions_run by (reflexivity || exact Hurl).
    cbn [OfflineAntiPornModel.url].
    set (req := post url image (next_logid w0)).
    exists (antiporn_request image),
           (req_array (next_logid w0) (SerializeToString (antiporn_request image))),
           req.
    split; [reflexivity|].
    split; [reflexivity|].
    split; [apply req_array_ascii|].
    split; [reflexivity|].
    destruct (urlopen_reply (remote w0) (List.length (calls w0)) req)
      as [response|msg] eqn:Hreply; cbn [fst snd].
    + split; [reflexivity|]. split.
      * intros response' text d encoded raw pb Hanswer.
        injection Hanswer as <-. apply decode_response_run.
      * intros v Hv.
        destruct (decode_response_ok _ Hv)
          as (text & d & encoded & raw & pb & H1 & H2 & H3 & H4 & H5 & H6).
        exists response, text, d, encoded, raw, pb. repeat split; assumption.
    + split; [reflexivity|]. split.
      * intros response text d encoded raw pb Hanswer. discriminate.
      * intros v Hv. discriminate.
Qed.

(** C9: when the POST of an invocation raises, on a model with the task
    list the constructor sets (and so with a url that
    [urllib.request.Request] took, or there is no POST),
    [OfflineAntiPornModel.predictions] returns no value and does not let
    that exception out: its message is printed, the call ends in
    [UnboundLocalError] for the local [response], the model is as it was,
    and the POST was issued once. *)
Theorem C9_failed_post_ends_in_UnboundLocalError :
  forall (m : OfflineAntiPornModel.t) (image : ndarray) (w : World) (msg : string),
    OfflineAntiPornModel._apiType m = ["antiporn"] ->
    Request_refuses (OfflineAntiPornModel.url m) = None ->
    urlopen_reply (remote w) (List.length (calls w))
      (post (OfflineAntiPornModel.url m) image (next_logid w)) = Fault msg ->
    let out := OfflineAntiPornModel.predictions image (m, w) in
    fst out = Raise (UnboundLocalError "response")
    /\ fst out <> Raise (VendorError msg)
    /\ fst (snd out) = m
    /\ stdout (snd (snd out)) = (stdout w ++ [exn_str (VendorError msg)])%list
    /\ issued_by (OfflineAntiPornModel.predictions image) m w
       = [Call_urlopen (post (OfflineAntiPornModel.url m) image (next_logid w))].
Proof.
  intros m image w msg Hm Hurl Hfault out. subst out.
  unfold issued_by.
  rewrite (OfflineAntiPornModel_predictions_run m image w Hm Hurl).
  cbv zeta. rewrite Hfault.
  cbn [fst snd with_stdout with_calls calls stdout exn_str].
  repeat split; try reflexivity.
  - discriminate.
  - apply skipn_length_app.
Qed.

End OfflineClaims.

(** ** The logid tells two request bodies apart *)

Lemma append_inv_head (a x y : string) : (a ++ x = a ++ y)%string -> x = y.
Proof.
  induction a as [|c a IH]; simpl; intros H.
  - exact H.
  - injection H as H. exact (IH H).
Qed.

Lemma length_append (a b : string) :
  String.length (a ++ b) = (String.length a + String.length b)%nat.
Proof.
  induction a as [|c a IH]; simpl; [reflexivity | now rewrite IH].
Qed.

Lemma append_inv_tail (x y s : string) : (x ++ s = y ++ s)%string -> x = y.
Proof.
  revert y. induction x as [|c x IH]; intros [|c' y] H; simpl in H.
  - reflexivity.
  - apply (f_equal String.length) in H. simpl in H.
    rewrite length_append in H. lia.
  - apply (f_equal String.length) in H. simpl in H.
    rewrite length_append in H. lia.
  - injection H as -> H. rewrite (IH _ H). reflexivity.
Qed.

Lemma to_int_nonnil (z : Z) :
  Z.to_int z <> Decimal.Pos Decimal.Nil /\ Z.to_int z <> Decimal.Neg Decimal.Nil.
Proof.
  destruct z as [|p|p]; simpl; split; try discriminate;
    intros H; injection H as H;
    exact (DecimalPos.Unsigned.to_uint_nonnil p H).
Qed.

Lemma json_int_inj (a b : Z) : json_int a = json_int b -> a = b.
Proof.
  unfold json_int. intros H.
  apply (f_equal NilZero.int_of_string) in H.
  destruct (to_int_nonnil a) as [Ha1 Ha2].
  destruct (to_int_nonnil b) as [Hb1 Hb2].
  rewrite !NilZero.isi in H by assumption.
  injection H as H.
  rewrite <- (DecimalZ.of_to a), <- (DecimalZ.of_to b), H. reflexivity.
Qed.

Lemma list_byte_of_string_inj (a b : string) :
  list_byte_of_string a = list_byte_of_string b -> a = b.
Proof.
  intros H.
  rewrite <- (string_of_list_byte_of_string a),
    <- (string_of_list_byte_of_string b), H.
  reflexivity.
Qed.

Lemma req_array_dumps_inj (l1 l2 : Z) (payload : bytes) :
  json_dumps (PyDict (req_array l1 payload))
  = json_dumps (PyDict (req_array l2 payload)) ->
  l1 = l2.
Proof.
  cbn [json_dumps req_array map join fst snd]. intros H.
  apply append_inv_head in H.
  apply append_inv_tail in H.
  apply append_inv_head in H.
  apply append_inv_head in H.
  apply append_inv_tail in H.
  apply append_inv_head in H.
  apply append_inv_head in H.
  apply json_int_inj. exact H.
Qed.

Section OfflineDeterminism.
Context {F : Foreign}.

(** C4, as the code has it: the body of the request is a fixed function of
    the image and of the [logid] that [random.randint(1000000, 100000000)]
    gives the invocation, and of nothing else in the world: two invocations
    on one image send byte-for-byte identical bodies whenever they draw the
    same [logid], and, when [urllib.request.Request] takes the model's url,
    only then: the body tells the [logid].  With a url that [Request] does
    not take no body is sent at all. *)
Theorem C4_body_fixed_by_image_and_logid :
  forall (url : string) (bounds : pyobj) (channel_axis : Z)
         (preprocessing : pyobj) (image : ndarray),
  exists envelope : Z -> bytes,
    forall w0 : World,
    exists (m : OfflineAntiPornModel.t) (w : World),
      OfflineAntiPornModel.__init__ url bounds channel_axis preprocessing w0
      = (Ok m, w)
      /\ (forall wa : World,
             1000000 <= next_logid wa <= 100000000
             /\ sent_bodies
                  (issued_by (OfflineAntiPornModel.predictions image) m wa)
                = match Request_refuses url with
                  | None => [envelope (next_logid wa)]
                  | Some _ => []
                  end)
      /\ (forall wa wb : World,
             next_logid wa = next_logid wb ->
             sent_bodies (issued_by (OfflineAntiPornModel.predictions image) m wa)
             = sent_bodies (issued_by (OfflineAntiPornModel.predictions image) m wb))
      /\ (forall wa wb : World,
             Request_refuses url = None ->
             sent_bodies (issued_by (OfflineAntiPornModel.predictions image) m wa)
             = sent_bodies (issued_by (OfflineAntiPornModel.predictions image) m wb) ->
             next_logid wa = next_logid wb).
Proof.
  intros url bounds channel_axis preprocessing image.
  exists (fun logid => data (post url image logid)).
  intros w0. rewrite OfflineAntiPornModel_init_run.
  eexists. exists w0. split; [reflexivity|].
  assert (Hsent : forall wa,
             sent_bodies
               (issued_by (OfflineAntiPornModel.predictions image)
                  {| OfflineAntiPornModel.base :=
                       {| Model._bounds := bounds;
                          Model._channel_axis := channel_axis;
                          Model._preprocessing := preprocessing |};
                     OfflineAntiPornModel.url := url;
                     OfflineAntiPornModel._apiType := ["antiporn"];
                     OfflineAntiPornModel._task := "cls" |} wa)
             = match Request_refuses url with
               | None => [data (post url image (next_logid wa))]
               | Some _ => []
               end).
  { intros wa. unfold issued_by.
    destruct (Request_refuses url) as [refusal|] eqn:Hurl.
    - rewrite (@OfflineAntiPornModel_predictions_refused _ _ image wa refusal)
        by (reflexivity || exact Hurl).
      cbn [fst snd after_logid with_random calls].
      rewrite <- (app_nil_r (calls wa)) at 2.
      rewrite skipn_length_app. reflexivity.
    - rewrite OfflineAntiPornModel_predictions_run
        by (reflexivity || exact Hurl).
      cbn [OfflineAntiPornModel.url].
      destruct (urlopen_reply (remote wa) (List.length (calls wa))
                  (post url image (next_logid wa)));
        cbn [fst snd with_stdout with_calls calls];
        rewrite skipn_length_app; reflexivity. }
  split.
  - intros wa. split.
    + unfold next_logid, draw.
      pose proof (@randint_request_range 1000000 100000000
                    (fun i => stream (random wa) (position (random wa) + i)%nat))
        as Hrange.
      destruct (randint_request 1000000 100000000
                  (fun i => stream (random wa) (position (random wa) + i)%nat))
        as [v used].
      cbn [fst] in *. apply Hrange. lia.
    + apply Hsent.
  - split.
    + intros wa wb Hlogid. rewrite !Hsent, Hlogid. reflexivity.
    + intros wa wb Hurl. rewrite !Hsent, Hurl. intros Hbodies.
      pose proof (f_equal (fun l => hd [] l) Hbodies) as Hhd.
      cbn [hd post data] in Hhd.
      apply list_byte_of_string_inj in Hhd.
      exact (req_array_dumps_inj Hhd).
Qed.

End OfflineDeterminism.

(** C4, as the spec words it, fails: in the sample world two invocations in
    a row on one image draw the logids 1104729 and 1112648 and send two
    bodies that differ. *)
Lemma C4_two_runs_send_different_bodies :
  let m := SampleWorld.offline SampleWorld.service_url in
  let first := OfflineAntiPornModel.predictions (F := Sample.foreign)
                 SampleWorld.pixels (m, SampleWorld.world) in
  let second := OfflineAntiPornModel.predictions (F := Sample.foreign)
                  SampleWorld.pixels (snd first) in
  next_logid SampleWorld.world = 1104729
  /\ next_logid (snd (snd first)) = 1112648
  /\ exists body1 body2,
       sent_bodies (calls (snd (snd second))) = [body1; body2]
       /\ body1 <> body2.
Proof.
  cbv zeta. split; [reflexivity|]. split; [vm_compute; reflexivity|].
  eexists. eexists. split.
  - vm_compute. reflexivity.
  - intros H. discriminate H.
Qed.

(** ** The vendor SDK wrappers *)

Section Vendors.
Context {F : Foreign}.

Lemma dict_get_protobuf_to_dict (key : string) (pb : message) :
  dict_get key (protobuf_to_dict pb) = option_map pb_to_py (message_get key pb).
Proof.
  induction pb as [|[k v] pb IH]; simpl.
  - reflexivity.
  - destruct (String.eqb k key); [reflexivity | exact IH].
Qed.

(** The annotation loop touches no state and computes [annotation_dicts]. *)
Lemma annotation_loop_run {St} (body : list pyobj -> pbvalue -> M St (list pyobj)) :
  (forall acc item s,
      body acc item s
      = (match as_message item with
         | Ok pb => Ok (acc ++ [PyDict (protobuf_to_dict pb)])%list
         | Raise e => Raise e
         end, s)) ->
  forall (items : list pbvalue) (acc : list pyobj) (s : St),
    for_each items body acc s = (annotation_dicts items acc, s).
Proof.
  intros Hbody.
  induction items as [|item items IH]; intros acc s; simpl.
  - reflexivity.
  - unfold bind. rewrite Hbody.
    destruct (as_message item) as [pb|e]; [apply IH | reflexivity].
Qed.


Lemma GoogleObjectDetectionModel_predictions_run
    (m : GoogleObjectDetectionModel.t) (image : ndarray) (w : World) :
  let client := GoogleObjectDetectionModel.model m in
  let img := {| content := ndarray_to_bytes image |} in
  GoogleObjectDetectionModel.predictions image (m, w)
  = (match object_localization_reply (remote w) (List.length (calls w)) client img with
     | Answer whole =>
         match repeated_field "localized_object_annotations" whole with
         | Ok items =>
             match annotation_dicts items [] with
             | Ok ds => Ok (PyList ds)
             | Raise e => Raise e
             end
         | Raise e => Raise e
         end
     | Fault msg => Raise (VendorError msg)
     end,
     (m, with_calls (calls w ++ [Call_object_localization client img])%list w)).
Proof.
  intros client img.
  unfold GoogleObjectDetectionModel.predictions, bind, self_field, in_world,
    object_localization, issue, lift_result, ret.
  cbn [fst snd]. fold client img.
  destruct (object_localization_reply (remote w) (List.length (calls w)) client img)
    as [whole|msg]; cbn [of_reply]; [|reflexivity].
  destruct (repeated_field "localized_object_annotations" whole)
    as [items|e]; [|reflexivity].
  rewrite annotation_loop_run
    by (intros acc item s; destruct (as_message item); reflexivity).
  destruct (annotation_dicts items []); reflexivity.
Qed.

Lemma GoogleOCRModel_predictions_run
    (m : GoogleOCRModel.t) (image : ndarray) (w : World) :
  let client := GoogleOCRModel.model m in
  let img := {| content := ndarray_to_bytes image |} in
  GoogleOCRModel.predictions image (m, w)
  = (match object_localization_reply (remote w) (List.length (calls w)) client img with
     | Answer whole =>
         match repeated_field "localized_object_annotations" whole with
         | Ok items =>
             match annotation_dicts items [] with
             | Ok ds => Ok (PyList ds)
             | Raise e => Raise e
             end
         | Raise e => Raise e
         end
     | Fault msg => Raise (VendorError msg)
     end,
     (m, with_calls (calls w ++ [Call_object_localization client img])%list w)).
Proof.
  intros client img.
  unfold GoogleOCRModel.predictions, bind, self_field, in_world,
    object_localization, issue, lift_result, ret.
  cbn [fst snd]. fold client img.
  destruct (object_localization_reply (remote w) (List.length (calls w)) client img)
    as [whole|msg]; cbn [of_reply]; [|reflexivity].
  destruct (repeated_field "localized_object_annotations" whole)
    as [items|e]; [|reflexivity].
  rewrite annotation_loop_run
    by (intros acc item s; destruct (as_message item); reflexivity).
  destruct (annotation_dicts items []); reflexivity.
Qed.

Lemma GoogleSafeSearchModel_predictions_run
    (m : GoogleSafeSearchModel.t) (image : ndarray) (w : World) :
  let client := GoogleSafeSearchModel.model m in
  let img := {| content := ndarray_to_bytes image |} in
  GoogleSafeSearchModel.predictions image (m, w)
  = (match safe_search_detection_reply (remote w) (List.length (calls w)) client img with
     | Answer response =>
         match message_get "safe_search_annotation" response with
         | Some annotation => Ok (pb_to_py annotation)
         | None => Raise (KeyError "safe_search_annotation")
         end
     | Fault msg => Raise (VendorError msg)
     end,
     (m, with_calls (calls w ++ [Call_safe_search_detection client img])%list w)).
Proof.
  intros client img.
  unfold GoogleSafeSearchModel.predictions, bind, self_field, in_world,
    safe_search_detection, issue, lift_result, ret, getitem.
  cbn [fst snd]. fold client img.
  destruct (safe_search_detection_reply (remote w) (List.length (calls w)) client img)
    as [response|msg]; cbn [of_reply]; [|reflexivity].
  rewrite dict_get_protobuf_to_dict.
  destruct (message_get "safe_search_annotation" response); reflexivity.
Qed.

Lemma AipAntiPornModel_predictions_run
    (m : AipAntiPornModel.t) (image : ndarray) (w : World) :
  let client := AipAntiPornModel.model m in
  let image_bytes := ndarray_to_bytes image in
  AipAntiPornModel.predictions image (m, w)
  = (match antiPorn_reply (remote w) (List.length (calls w)) client image_bytes with
     | Answer r =>
         match dict_get "result" r with
         | Some v => Ok v
         | None => Ok (PyDict r)
         end
     | Fault msg => Raise (VendorError msg)
     end,
     (m, with_calls (calls w ++ [Call_antiPorn client image_bytes])%list w)).
Proof.
  intros client image_bytes.
  unfold AipAntiPornModel.predictions, bind, self_field, in_world,
    antiPorn, issue, lift_result, ret, getitem, dict_contains.
  cbn [fst snd]. fold client image_bytes.
  destruct (antiPorn_reply (remote w) (List.length (calls w)) client image_bytes)
    as [r|msg]; cbn [of_reply]; [|reflexivity].
  destruct (dict_get "result" r); reflexivity.
Qed.

End Vendors.

Section VendorClaims.
Context {F : Foreign}.

(** C3: when the vendor call of [AipAntiPornModel.predictions] answers a
    dict [r], the method returns [r['result']] if ['result'] is a key of [r]
    and [r] itself if not; in the first case what is returned has the
    documented shape, a list of dicts with the keys ['class_name'] and
    ['probability'], whenever [r['result']] has. *)
Theorem C3_aip_result_or_whole_response :
  forall (m : AipAntiPornModel.t) (image : ndarray) (w : World) (r : pydict),
    antiPorn_reply (remote w) (List.length (calls w))
      (AipAntiPornModel.model m) (ndarray_to_bytes image) = Answer r ->
    let returned := fst (AipAntiPornModel.predictions image (m, w)) in
    (forall v, dict_get "result" r = Some v ->
               returned = Ok v
               /\ (antiporn_shape v = true ->
                   exists v', returned = Ok v' /\ antiporn_shape v' = true))
    /\ (dict_get "result" r = None -> returned = Ok (PyDict r)).
Proof.
  intros m image w r Hreply returned. subst returned.
  rewrite AipAntiPornModel_predictions_run. cbv zeta. rewrite Hreply.
  cbn [fst]. split.
  - intros v Hv. rewrite Hv. split; [reflexivity|].
    intros Hshape. exists v. split; [reflexivity | exact Hshape].
  - intros Hnone. rewrite Hnone. reflexivity.
Qed.



(** C2, on the code: the value [GoogleSafeSearchModel.predictions] returns
    for a response that carries a [safe_search_annotation] message is the
    dict of that message, and every value
    [OfflineAntiPornModel.predictions] returns is a dict: neither is a list
    of dicts. *)
Theorem C2_safe_search_and_offline_return_a_dict :
  (forall (m : GoogleSafeSearchModel.t) (image : ndarray) (w : World)
          (response annotation : message),
      safe_search_detection_reply (remote w) (List.length (calls w))
        (GoogleSafeSearchModel.model m) {| content := ndarray_to_bytes image |}
      = Answer response ->
      message_get "safe_search_annotation" response = Some (PbMessage annotation) ->
      fst (GoogleSafeSearchModel.predictions image (m, w))
      = Ok (PyDict (protobuf_to_dict annotation))
      /\ is_list_of_dicts (PyDict (protobuf_to_dict annotation)) = false)
  /\ (forall (m : OfflineAntiPornModel.t) (image : ndarray) (w : World) (v : pyobj),
      fst (OfflineAntiPornModel.predictions image (m, w)) = Ok v ->
      is_dict v = true /\ is_list_of_dicts v = false).
Proof.
  split.
  - intros m image w response annotation Hreply Hget.
    rewrite GoogleSafeSearchModel_predictions_run. cbv zeta.
    rewrite Hreply, Hget. split; reflexivity.
  - intros m image w v.
    unfold OfflineAntiPornModel.predictions, bind.
    destruct (OfflineAntiPornModel.build_request image (m, w))
      as [[req|e] s1]; [|discriminate].
    unfold try_except, bind, in_world, urlopen_read, issue, print, ret.
    cbn [fst snd].
    destruct (urlopen_reply (remote (snd s1)) (List.length (calls (snd s1))) req)
      as [response|msg]; cbn [of_reply fst snd lift_result raise].
    + intros Hv. apply decode_response_ok in Hv.
      destruct Hv as (text & d & encoded & raw & pb & _ & _ & _ & _ & _ & ->).
      split; reflexivity.
    + discriminate.
Qed.

End VendorClaims.

(** ** Constructors *)

Lemma GoogleCloudModel_init_run (bounds : pyobj) (channel_axis : Z)
    (preprocessing : pyobj) (w : World) :
  GoogleCloudModel.__init__ bounds channel_axis preprocessing w
  = (match environ_get "GOOGLE_APPLICATION_CREDENTIALS" (environ w) with
     | Some _ =>
         Ok {| GoogleCloudModel.base :=
                 {| Model._bounds := bounds; Model._channel_axis := channel_axis;
                    Model._preprocessing := preprocessing |} |}
     | None =>
         Raise (AssertionError
                  " Credential GOOGLE_APPLICATION_CREDENTIALS needs to be set.")
     end, w).
Proof.
  unfold GoogleCloudModel.__init__, Model.__init__, bind, ret, os_environ_get.
  destruct (environ_get "GOOGLE_APPLICATION_CREDENTIALS" (environ w));
    reflexivity.
Qed.

(** Creating the SDK client raises no [AssertionError]. *)
Lemma new_ImageAnnotatorClient_no_assertion (w : World) (msg : string) :
  fst (new_ImageAnnotatorClient w) <> Raise (AssertionError msg).
Proof.
  unfold new_ImageAnnotatorClient.
  destruct (annotator_client_reply (remote w) (clients w)); discriminate.
Qed.

Ltac google_subclass_init init :=
  intros bounds channel_axis preprocessing w;
  unfold init, bind;
  rewrite GoogleCloudModel_init_run;
  destruct (environ_get "GOOGLE_APPLICATION_CREDENTIALS" (environ w)) as [path|];
  [ split;
    [ intros [msg Hraise];
      pose proof (@new_ImageAnnotatorClient_no_assertion w msg) as Hclient;
      destruct (new_ImageAnnotatorClient w) as [[client|e] w'];
      cbn [fst] in *; [discriminate | congruence]
    | discriminate ]
  | split; [reflexivity | intros _; eexists; reflexivity] ].

(** C8: constructing [GoogleCloudModel], [GoogleSafeSearchModel],
    [GoogleObjectDetectionModel] or [GoogleOCRModel] raises
    [AssertionError] if and only if [GOOGLE_APPLICATION_CREDENTIALS] is not
    in the environment; and when constructing [AipModel] or
    [AipAntiPornModel] succeeds, [credential] gave exactly three elements,
    which are the [_appId], [_apiKey] and [_secretKey] fields, in this
    order. *)
Theorem C8_constructors_check_credentials :
  (forall (bounds : pyobj) (channel_axis : Z) (preprocessing : pyobj) (w : World),
      (exists msg,
          fst (GoogleCloudModel.__init__ bounds channel_axis preprocessing w)
          = Raise (AssertionError msg))
      <-> environ_get "GOOGLE_APPLICATION_CREDENTIALS" (environ w) = None)
  /\ (forall (bounds : pyobj) (channel_axis : Z) (preprocessing : pyobj) (w : World),
      (exists msg,
          fst (GoogleSafeSearchModel.__init__ bounds channel_axis preprocessing w)
          = Raise (AssertionError msg))
      <-> environ_get "GOOGLE_APPLICATION_CREDENTIALS" (environ w) = None)
  /\ (forall (bounds : pyobj) (channel_axis : Z) (preprocessing : pyobj) (w : World),
      (exists msg,
          fst (GoogleObjectDetectionModel.__init__ bounds channel_axis
                 preprocessing w)
          = Raise (AssertionError msg))
      <-> environ_get "GOOGLE_APPLICATION_CREDENTIALS" (environ w) = None)
  /\ (forall (bounds : pyobj) (channel_axis : Z) (preprocessing : pyobj) (w : World),
      (exists msg,
          fst (GoogleOCRModel.__init__ bounds channel_axis preprocessing w)
          = Raise (AssertionError msg))
      <-> environ_get "GOOGLE_APPLICATION_CREDENTIALS" (environ w) = None)
  /\ (forall (credential bounds : pyobj) (channel_axis : Z) (preprocessing : pyobj)
             (w : World) (m : AipModel.t),
      fst (AipModel.__init__ credential bounds channel_axis preprocessing w) = Ok m ->
      iter_items credential
      = Ok [AipModel._appId m; AipModel._apiKey m; AipModel._secretKey m])
  /\ (forall (credential bounds : pyobj) (channel_axis : Z) (preprocessing : pyobj)
             (w : World) (m : AipAntiPornModel.t),
      fst (AipAntiPornModel.__init__ credential bounds channel_axis preprocessing w)
      = Ok m ->
      iter_items credential
      = Ok [AipModel._appId (AipAntiPornModel.super m);
            AipModel._apiKey (AipAntiPornModel.super m);
            AipModel._secretKey (AipAntiPornModel.super m)]).
Proof.
  split; [|split; [|split; [|split; [|split]]]].
  - intros bounds channel_axis preprocessing w.
    rewrite GoogleCloudModel_init_run.
    destruct (environ_get "GOOGLE_APPLICATION_CREDENTIALS" (environ w)); split.
    + intros [msg H]. discriminate.
    + discriminate.
    + reflexivity.
    + intros _. eexists. reflexivity.
  - google_subclass_init GoogleSafeSearchModel.__init__.
  - google_subclass_init GoogleObjectDetectionModel.__init__.
  - google_subclass_init GoogleOCRModel.__init__.
  - intros credential bounds channel_axis preprocessing w m.
    unfold AipModel.__init__, Model.__init__, bind, ret, lift_result, unpack3.
    destruct (iter_items credential) as [[|a [|b [|c [|d items]]]]|e];
      try discriminate.
    intros H. injection H as <-. reflexivity.
  - intros credential bounds channel_axis preprocessing w m.
    unfold AipAntiPornModel.__init__, AipModel.__init__, Model.__init__,
      bind, ret, lift_result, unpack3.
    destruct (iter_items credential) as [[|a [|b [|c [|d items]]]]|e];
      try discriminate.
    cbn [AipModel._appId AipModel._apiKey AipModel._secretKey].
    destruct (new_AipImageCensor a b c) as [client|e]; [|discriminate].
    intros H. injection H as <-. reflexivity.
Qed.

(** ** Seeding *)

Section Seeding.
Context {G : Rngs.Algorithms}.

(** Once both generators are seeded nothing is left of the state before. *)
Lemma set_seeds_run (seed : Z) (st : Rngs.State) :
  0 <= seed <= 4294967295 ->
  Rngs.set_seeds seed st
  = (Ok tt,
     {| Rngs.rng := {| stream := Rngs.Random_stream seed; position := 0 |};
        Rngs.nprng := {| stream := Rngs.RandomState_stream seed; position := 0 |} |}).
Proof.
  intros Hseed.
  unfold Rngs.set_seeds, bind, Rngs.rng_seed, Rngs.nprng_seed,
    Rngs.Random_seed, Rngs.RandomState_seed.
  replace ((0 <=? seed) && (seed <=? 4294967295)) with true.
  - reflexivity.
  - symmetry. apply andb_true_iff. split; apply Z.leb_le; lia.
Qed.

(** C7, as the code has it: for every seed from 0 to 2**32 - 1,
    [set_seeds] seeds [rng] and [nprng] with that seed, and draws are then
    reproducible: two runs that start from any two states of the module,
    call [set_seeds] with the seed and make the same requests to [rng] and
    [nprng] get the same values. *)
Theorem C7_set_seeds_makes_draws_reproducible :
  forall (V : Type) (seed : Z),
    0 <= seed <= 4294967295 ->
    forall (st1 st2 : Rngs.State) (reqs : list (Rngs.source * request V)),
      (exists st,
          Rngs.set_seeds seed st1 = (Ok tt, st)
          /\ Rngs.Random_seed seed = Ok (Rngs.rng st)
          /\ Rngs.RandomState_seed seed = Ok (Rngs.nprng st))
      /\ fst (bind (Rngs.set_seeds seed) (fun _ => Rngs.draws reqs) st1)
         = fst (bind (Rngs.set_seeds seed) (fun _ => Rngs.draws reqs) st2).
Proof.
  intros V seed Hseed st1 st2 reqs. split.
  - eexists. split; [apply set_seeds_run; exact Hseed|].
    cbn [Rngs.rng Rngs.nprng]. split; [reflexivity|].
    unfold Rngs.RandomState_seed.
    replace ((0 <=? seed) && (seed <=? 4294967295)) with true; [reflexivity|].
    symmetry. apply andb_true_iff. split; apply Z.leb_le; lia.
  - unfold bind. rewrite !set_seeds_run by exact Hseed. reflexivity.
Qed.

End Seeding.

(** C7, as the spec words it, fails at the seed -1: [rng] takes it,
    [nprng.seed] raises [ValueError] and leaves [nprng] as the import seeded
    it, and two runs then draw different values from [nprng]. *)
Lemma C7_negative_seed_is_refused :
  let run1 := Rngs.set_seeds (G := SampleWorld.algorithms) (-1)
                (SampleWorld.imported 11) in
  let run2 := Rngs.set_seeds (G := SampleWorld.algorithms) (-1)
                (SampleWorld.imported 22) in
  fst run1 = Raise (ValueError "Seed must be between 0 and 2**32 - 1")
  /\ Rngs.nprng (snd run1) = Rngs.nprng (SampleWorld.imported 11)
  /\ fst (Rngs.draw_from Rngs.From_nprng (randint_request 0 9) (snd run1)) = Ok 2
  /\ fst (Rngs.draw_from Rngs.From_nprng (randint_request 0 9) (snd run2)) = Ok 4.
Proof.
  cbv zeta. repeat split.
Qed.

(** ** The theorems at work in the sample world *)

(** The test vectors of RFC 4648, section 10. *)
Example b64encode_rfc4648 :
  map (fun s => string_of_list_byte (b64encode (list_byte_of_string s)))
      ["f"; "fo"; "foo"; "foob"; "fooba"; "foobar"]
  = ["Zg=="; "Zm8="; "Zm9v"; "Zm9vYg=="; "Zm9vYmE="; "Zm9vYmFy"]
  /\ b64encode [] = [].
Proof. split; reflexivity. Qed.

(** The body sent for the sample image reads back as the JSON object it was
    written from. *)
Example request_body_reads_back :
  Sample.read_object
    (json_dumps
       (PyDict (req_array 1104729
                  (Sample.wire_GeneralClassifyRequest
                     (antiporn_request (F := Sample.foreign) SampleWorld.pixels)))))
  = Some (PyDict [ ("appid", PyStr "123456");
                   ("logid", PyInt 1104729);
                   ("format", PyStr "json");
                   ("from", PyStr "test-python");
                   ("cmdid", PyStr "123");
                   ("clientip", PyStr "0.0.0.0");
                   ("data", PyStr "CgNpbWcSDAoIYW50aXBvcm4QBQ==") ]).
Proof. vm_compute. reflexivity. Qed.

(** A whole exchange with the sample service: the response's ['result'] is
    decoded and replaced. *)
Example offline_round_trip :
  fst (OfflineAntiPornModel.predictions (F := Sample.foreign) SampleWorld.pixels
         (SampleWorld.offline SampleWorld.service_url, SampleWorld.world))
  = Ok (PyDict [ ("err_no", PyInt 0);
                 ("result",
                  PyDict [ ("1", PyInt 1);
                           ("2", PyBytes (list_byte_of_string "abc")) ]) ]).
Proof. vm_compute. reflexivity. Qed.

(** C1 in the sample world: the service at [service_url] answers the POST,
    and the value returned is its JSON object with ['result'] replaced by
    the dict of the message it encoded. *)
Lemma C1_offline_request_and_response_witness :
  exists (m : OfflineAntiPornModel.t) (w : World),
    OfflineAntiPornModel.__init__ SampleWorld.service_url default_bounds
      default_channel_axis default_preprocessing SampleWorld.world
    = (Ok m, w)
    /\ fst (OfflineAntiPornModel.predictions (F := Sample.foreign)
              SampleWorld.pixels (m, w))
       = Ok (PyDict [ ("err_no", PyInt 0);
                      ("result",
                       PyDict [ ("1", PyInt 1);
                                ("2", PyBytes (list_byte_of_string "abc")) ]) ]).
Proof.
  destruct (@C1_offline_request_and_response Sample.foreign
              SampleWorld.service_url default_bounds default_channel_axis
              default_preprocessing SampleWorld.pixels SampleWorld.world)
    as (m & w & Hinit & H).
  exists m, w. split; [exact Hinit|].
  rewrite OfflineAntiPornModel_init_run in Hinit.
  injection Hinit as <- <-.
  cbv zeta in H.
  change (Request_refuses (Foreign := Sample.foreign) SampleWorld.service_url)
    with (@None string) in H.
  cbv beta iota in H.
  destruct H as (proto_data & obj & req & _ & _ & _ & Hurl & _ & Hrun & _).
  eapply eq_trans.
  - eapply Hrun.
    + cbn [SampleWorld.world remote SampleWorld.services urlopen_reply].
      rewrite Hurl. reflexivity.
    + reflexivity.
    + reflexivity.
    + reflexivity.
    + reflexivity.
    + reflexivity.
  - vm_compute. reflexivity.
Defined.


(** C2 in the sample world: the safe-search annotation and the offline
    response come back as dicts. *)
Lemma C2_safe_search_and_offline_return_a_dict_witness :
  (fst (GoogleSafeSearchModel.predictions (F := Sample.foreign) SampleWorld.pixels
          (SampleWorld.safe_search, SampleWorld.world))
   = Ok (PyDict [ ("adult", PyInt 1); ("spoof", PyInt 1); ("medical", PyInt 2);
                  ("violence", PyInt 1); ("racy", PyInt 3) ])
   /\ is_list_of_dicts
        (PyDict [ ("adult", PyInt 1); ("spoof", PyInt 1); ("medical", PyInt 2);
                  ("violence", PyInt 1); ("racy", PyInt 3) ]) = false)
  /\ (is_dict (PyDict [ ("err_no", PyInt 0);
                        ("result",
                         PyDict [ ("1", PyInt 1);
                                  ("2", PyBytes (list_byte_of_string "abc")) ]) ])
      = true
      /\ is_list_of_dicts
           (PyDict [ ("err_no", PyInt 0);
                     ("result",
                      PyDict [ ("1", PyInt 1);
                               ("2", PyBytes (list_byte_of_string "abc")) ]) ])
         = false).
Proof.
  split.
  - apply (proj1 (@C2_safe_search_and_offline_return_a_dict Sample.foreign)
             SampleWorld.safe_search SampleWorld.pixels SampleWorld.world
             SampleWorld.safe_search_answer
             [ ("adult", PbScalar (PyInt 1)); ("spoof", PbScalar (PyInt 1));
               ("medical", PbScalar (PyInt 2)); ("violence", PbScalar (PyInt 1));
               ("racy", PbScalar (PyInt 3)) ]); reflexivity.
  - apply (proj2 (@C2_safe_search_and_offline_return_a_dict Sample.foreign)
             (SampleWorld.offline SampleWorld.service_url) SampleWorld.pixels
             SampleWorld.world).
    vm_compute. reflexivity.
Defined.

(** C3 in the sample world, where the vendor answers a dict with a
    ['result'] list. *)
Lemma C3_aip_result_or_whole_response_witness :
  let returned :=
    fst (AipAntiPornModel.predictions (F := Sample.foreign) SampleWorld.pixels
           (SampleWorld.aip, SampleWorld.world)) in
  (forall v, dict_get "result" SampleWorld.antiporn_answer = Some v ->
             returned = Ok v
             /\ (antiporn_shape v = true ->
                 exists v', returned = Ok v' /\ antiporn_shape v' = true))
  /\ (dict_get "result" SampleWorld.antiporn_answer = None ->
      returned = Ok (PyDict SampleWorld.antiporn_answer)).
Proof.
  apply (@C3_aip_result_or_whole_response Sample.foreign SampleWorld.aip
           SampleWorld.pixels SampleWorld.world SampleWorld.antiporn_answer).
  reflexivity.
Defined.

(** C4 in two sample worlds that differ in what was printed so far: same
    logid, same body. *)
Lemma C4_body_fixed_by_image_and_logid_witness :
  exists m : OfflineAntiPornModel.t,
    fst (OfflineAntiPornModel.__init__ SampleWorld.service_url default_bounds
           default_channel_axis default_preprocessing SampleWorld.world) = Ok m
    /\ sent_bodies
         (issued_by (OfflineAntiPornModel.predictions (F := Sample.foreign)
                       SampleWorld.pixels) m SampleWorld.world)
       = sent_bodies
           (issued_by (OfflineAntiPornModel.predictions (F := Sample.foreign)
                         SampleWorld.pixels) m
              (with_stdout ["started"] SampleWorld.world)).
Proof.
  destruct (@C4_body_fixed_by_image_and_logid Sample.foreign
              SampleWorld.service_url default_bounds default_channel_axis
              default_preprocessing SampleWorld.pixels) as [envelope Hall].
  destruct (Hall SampleWorld.world) as (m & w & Hinit & _ & Hsame & _).
  exists m. split.
  - rewrite Hinit. reflexivity.
  - apply Hsame. reflexivity.
Defined.

(** C7 at the seed 42, from two differently seeded imports of the
    module. *)
Lemma C7_set_seeds_makes_draws_reproducible_witness :
  let reqs := [ (Rngs.From_rng, randint_request 0 9);
                (Rngs.From_nprng, randint_request 1 6);
                (Rngs.From_rng, randint_request 0 255) ] in
  (exists st,
      Rngs.set_seeds (G := SampleWorld.algorithms) 42 (SampleWorld.imported 11)
      = (Ok tt, st)
      /\ Rngs.Random_seed (G := SampleWorld.algorithms) 42 = Ok (Rngs.rng st)
      /\ Rngs.RandomState_seed (G := SampleWorld.algorithms) 42
         = Ok (Rngs.nprng st))
  /\ fst (bind (Rngs.set_seeds (G := SampleWorld.algorithms) 42)
               (fun _ => Rngs.draws reqs) (SampleWorld.imported 11))
     = fst (bind (Rngs.set_seeds (G := SampleWorld.algorithms) 42)
                 (fun _ => Rngs.draws reqs) (SampleWorld.imported 22)).
Proof.
  intros reqs.
  apply (@C7_set_seeds_makes_draws_reproducible SampleWorld.algorithms Z 42).
  lia.
Defined.

(** C8 at the sample credential: its three elements are the three
    fields. *)
Lemma C8_constructors_check_credentials_witness :
  iter_items SampleWorld.credential
  = Ok [ AipModel._appId (AipAntiPornModel.super SampleWorld.aip);
         AipModel._apiKey (AipAntiPornModel.super SampleWorld.aip);
         AipModel._secretKey (AipAntiPornModel.super SampleWorld.aip) ].
Proof.
  apply (proj2 (proj2 (proj2 (proj2 (proj2 C8_constructors_check_credentials))))
           SampleWorld.credential default_bounds default_channel_axis
           default_preprocessing SampleWorld.world SampleWorld.aip).
  reflexivity.
Defined.

(** C9 at a url where nothing listens. *)
Lemma C9_failed_post_ends_in_UnboundLocalError_witness :
  let m := SampleWorld.offline "http://10.0.0.7:8080/classify" in
  let out := OfflineAntiPornModel.predictions (F := Sample.foreign)
               SampleWorld.pixels (m, SampleWorld.world) in
  fst out = Raise (UnboundLocalError "response")
  /\ fst out
     <> Raise (VendorError "<urlopen error [Errno 111] Connection refused>")
  /\ fst (snd out) = m
  /\ stdout (snd (snd out))
     = (stdout SampleWorld.world
          ++ [exn_str (VendorError "<urlopen error [Errno 111] Connection refused>")])%list
  /\ issued_by (OfflineAntiPornModel.predictions (F := Sample.foreign)
                  SampleWorld.pixels) m SampleWorld.world
     = [Call_urlopen (post (F := Sample.foreign) (OfflineAntiPornModel.url m)
                        SampleWorld.pixels (next_logid SampleWorld.world))].
Proof.
  intros m.
  apply (@C9_failed_post_ends_in_UnboundLocalError Sample.foreign m
           SampleWorld.pixels SampleWorld.world
           "<urlopen error [Errno 111] Connection refused>");
    reflexivity.
Defined.

(** * More of the code *)

(** ** The offline request for any list of tasks *)

Section OfflineTasks.
Context {F : Foreign}.

Lemma bind_ok {St A B} (m : M St A) (k : A -> M St B) (s s' : St) (a : A) :
  m s = (Ok a, s') -> bind m k s = k a s'.
Proof. intros H. unfold bind. rewrite H. reflexivity. Qed.

Lemma bind_raise {St A B} (m : M St A) (k : A -> M St B) (s s' : St) (e : exn) :
  m s = (Raise e, s') -> bind m k s = (Raise e, s').
Proof. intros H. unfold bind. rewrite H. reflexivity. Qed.

Lemma update_nth_length {A} (f : A -> A) (l : list A) (a : A) :
  update_nth (List.length l) f (l ++ [a])%list = (l ++ [f a])%list.
Proof.
  induction l as [|x l IH]; simpl; [reflexivity | now rewrite IH].
Qed.

Lemma nth_error_middle {A} (l rest : list A) (a : A) :
  nth_error (l ++ a :: rest)%list (List.length l) = Some a.
Proof.
  induction l as [|x l IH]; simpl; [reflexivity | exact IH].
Qed.

(** The loop of [build_request]: after the names [done], the request holds
    one plain entry per name and [classifytype] refers to the last. *)
Lemma classify_loop_run (m : OfflineAntiPornModel.t) (w : World)
    (image_data : bytes)
    (body : GeneralClassifyRequest * option nat -> nat ->
            Method OfflineAntiPornModel.t (GeneralClassifyRequest * option nat)) :
  (forall vars i s,
      body vars i s
      = (match list_getitem (OfflineAntiPornModel._apiType (fst s)) i with
         | Ok name =>
             Ok (set_type_name (snd (classify_type_add (fst vars))) name
                   (fst (classify_type_add (fst vars))),
                 Some (snd (classify_type_add (fst vars))))
         | Raise e => Raise e
         end, s)) ->
  forall (rest done : list string) (ref : option nat),
    OfflineAntiPornModel._apiType m = (done ++ rest)%list ->
    for_each (seq (List.length done) (List.length rest)) body
      ({| image := Some image_data; classify_type := map plain_type done |}, ref)
      (m, w)
    = (Ok ({| image := Some image_data;
              classify_type := map plain_type (done ++ rest) |},
           match rest with
           | [] => ref
           | _ => Some (List.length (done ++ rest) - 1)%nat
           end),
       (m, w)).
Proof.
  intros Hbody.
  induction rest as [|name rest IH]; intros done ref Hm.
  - rewrite app_nil_r. reflexivity.
  - cbn [List.length seq for_each].
    erewrite bind_ok.
    2:{ rewrite Hbody. cbn [fst snd]. rewrite Hm.
        unfold list_getitem. rewrite nth_error_middle. reflexivity. }
    specialize (IH (done ++ [name])%list (Some (List.length done))).
    rewrite <- app_assoc in IH.
    rewrite length_app in IH. cbn [List.length] in IH.
    rewrite Nat.add_1_r in IH.
    unfold classify_type_add, set_type_name.
    cbn [fst snd image classify_type].
    rewrite update_nth_length. rewrite ?length_map. cbn [type_name topnum]. fold (plain_type name).
    replace (map plain_type done ++ [plain_type name])%list
      with (map plain_type (done ++ [name])%list)
      by (rewrite map_app; reflexivity).
    rewrite (IH Hm).
    destruct rest as [|name' rest']; cbn [app]; [|reflexivity].
    replace (List.length (done ++ [name]) - 1)%nat with (List.length done)
      by (rewrite length_app; cbn [List.length]; lia).
    reflexivity.
Qed.

Lemma last_ref (init : list string) (final : string) :
  match (init ++ [final])%list with
  | [] => None
  | _ :: _ => Some (List.length (init ++ [final]) - 1)%nat
  end = Some (List.length init).
Proof.
  destruct init as [|x init]; simpl.
  - reflexivity.
  - f_equal. rewrite length_app. simpl. lia.
Qed.

Lemma set_topnum_last (image_data : bytes) (init : list string) (final : string) :
  set_topnum (List.length init) 5
    {| image := Some image_data;
       classify_type := map plain_type (init ++ [final]) |}
  = {| image := Some image_data;
       classify_type := (map plain_type init ++ [top5_type final])%list |}.
Proof.
  unfold set_topnum. cbn [image classify_type].
  rewrite map_app. cbn [map].
  rewrite <- (length_map plain_type init), update_nth_length.
  reflexivity.
Qed.

(** With a task list that is not empty, the request is built up to the
    constructor of [Request], which takes the url or raises. *)
Lemma OfflineAntiPornModel_build_request_tasks
    (m : OfflineAntiPornModel.t) (img : ndarray) (w : World)
    (init : list string) (final : string) :
  OfflineAntiPornModel._apiType m = (init ++ [final])%list ->
  OfflineAntiPornModel.build_request img (m, w)
  = (match Request_refuses (OfflineAntiPornModel.url m) with
     | None =>
         Ok (post_of (OfflineAntiPornModel.url m) (request_for img init final)
               (next_logid w))
     | Some msg => Raise (ValueError msg)
     end,
     (m, after_logid w)).
Proof.
  intros Hm. unfold OfflineAntiPornModel.build_request.
  erewrite bind_ok
    by (unfold bind, self_field, ret; cbn [fst]; rewrite Hm; reflexivity).
  erewrite bind_ok.
  2:{ apply (@classify_loop_run m w (ndarray_to_bytes img) _) with (done := []).
      - intros vars i s. unfold bind, self_field, lift_result, ret.
        cbn [fst snd].
        destruct (classify_type_add (fst vars)) as [added ref].
        destruct (list_getitem (OfflineAntiPornModel._apiType (fst s)) i);
          reflexivity.
      - exact Hm. }
  rewrite app_nil_l, last_ref.
  cbv beta iota. rewrite set_topnum_last.
  unfold bind, ret, in_world, random_randint, lift_result, self_field.
  cbn [fst snd].
  unfold next_logid, after_logid.
  destruct (draw (randint_request 1000000 100000000) (random w)) as [logid g].
  cbn [fst snd]. rewrite req_array_ascii. unfold new_Request.
  destruct (Request_refuses (OfflineAntiPornModel.url m)); reflexivity.
Qed.

Lemma OfflineAntiPornModel_predictions_tasks
    (m : OfflineAntiPornModel.t) (img : ndarray) (w : World)
    (init : list string) (final : string) :
  OfflineAntiPornModel._apiType m = (init ++ [final])%list ->
  Request_refuses (OfflineAntiPornModel.url m) = None ->
  let req := post_of (OfflineAntiPornModel.url m) (request_for img init final)
               (next_logid w) in
  let sent := with_calls (calls w ++ [Call_urlopen req])%list (after_logid w) in
  OfflineAntiPornModel.predictions img (m, w)
  = match urlopen_reply (remote w) (List.length (calls w)) req with
    | Answer response =>
        (OfflineAntiPornModel.decode_response response, (m, sent))
    | Fault msg =>
        (Raise (UnboundLocalError "response"),
         (m, with_stdout (stdout w ++ [msg])%list sent))
    end.
Proof.
  intros Hm Hurl req sent.
  unfold OfflineAntiPornModel.predictions.
  erewrite bind_ok
    by (rewrite (OfflineAntiPornModel_build_request_tasks m img w init final Hm),
          Hurl; reflexivity).
  fold req.
  unfold try_except, bind, in_world, urlopen_read, issue, print, ret,
    lift_result, raise.
  cbn [fst snd calls remote after_logid with_random].
  destruct (urlopen_reply (remote w) (List.length (calls w)) req); reflexivity.
Qed.

Lemma OfflineAntiPornModel_predictions_tasks_refused
    (m : OfflineAntiPornModel.t) (img : ndarray) (w : World)
    (init : list string) (final msg : string) :
  OfflineAntiPornModel._apiType m = (init ++ [final])%list ->
  Request_refuses (OfflineAntiPornModel.url m) = Some msg ->
  OfflineAntiPornModel.predictions img (m, w)
  = (Raise (ValueError msg), (m, after_logid w)).
Proof.
  intros Hm Hurl.
  unfold OfflineAntiPornModel.predictions.
  erewrite bind_raise
    by (rewrite (OfflineAntiPornModel_build_request_tasks m img w init final Hm),
          Hurl; reflexivity).
  reflexivity.
Qed.

(** Without a task the variable [classifytype] is never bound. *)
Lemma OfflineAntiPornModel_build_request_no_task
    (m : OfflineAntiPornModel.t) (img : ndarray) (w : World) :
  OfflineAntiPornModel._apiType m = [] ->
  OfflineAntiPornModel.build_request img (m, w)
  = (Raise (UnboundLocalError "classifytype"), (m, w)).
Proof.
  intros Hm. unfold OfflineAntiPornModel.build_request.
  erewrite bind_ok
    by (unfold bind, self_field, ret; cbn [fst]; rewrite Hm; reflexivity).
  reflexivity.
Qed.

End OfflineTasks.

Section OfflineExtras.
Context {F : Foreign}.

(** X1: for a model whose task list is [init ++ [final]],
    [OfflineAntiPornModel.predictions] builds its request as far as the
    constructor of [urllib.request.Request], whatever the image and the
    world, after drawing the [logid].  When [Request] takes [self.url] the
    request goes to that url with the one header
    [Content-Type: application/json], its body is ASCII JSON whose ['logid']
    is the number drawn and whose ['data'] is the base64 of the serialized
    message, and the message has one [classify_type] entry per task, in
    order, of which only the last carries [topnum = 5] (the assignment
    follows the loop).  When [Request] does not take the url (one without a
    scheme), its [ValueError] is the outcome and no request exists. *)
Theorem X1_offline_request_for_any_tasks :
  forall (m : OfflineAntiPornModel.t) (img : ndarray) (w : World)
         (init : list string) (final : string),
    OfflineAntiPornModel._apiType m = (init ++ [final])%list ->
    match Request_refuses (OfflineAntiPornModel.url m) with
    | Some msg =>
        OfflineAntiPornModel.build_request img (m, w)
        = (Raise (ValueError msg), (m, after_logid w))
    | None =>
        exists (req : Request) (obj : pydict),
          OfflineAntiPornModel.build_request img (m, w)
          = (Ok req, (m, after_logid w))
          /\ full_url req = OfflineAntiPornModel.url m
          /\ headers req = [("Content-Type", "application/json")]
          /\ encode_ascii (json_dumps (PyDict obj)) = Ok (data req)
          /\ dict_get "logid" obj = Some (PyInt (next_logid w))
          /\ dict_get "data" obj
             = Some (PyBytes
                       (b64encode
                          (SerializeToString
                             {| image := Some (ndarray_to_bytes img);
                                classify_type :=
                                  (map (fun name => {| type_name := Some name;
                                                       topnum := None |}) init
                                   ++ [ {| type_name := Some final;
                                           topnum := Some 5 |} ])%list |})))
    end.
Proof.
  intros m img w init final Hm.
  rewrite (OfflineAntiPornModel_build_request_tasks m img w init final Hm).
  destruct (Request_refuses (OfflineAntiPornModel.url m)) as [msg|];
    [reflexivity|].
  exists (post_of (OfflineAntiPornModel.url m) (request_for img init final)
            (next_logid w)),
         (req_array (next_logid w)
            (SerializeToString (request_for img init final))).
  split; [reflexivity|].
  split; [reflexivity|]. split; [reflexivity|].
  split; [apply req_array_ascii|].
  split; reflexivity.
Qed.

(** X2: with an empty task list [OfflineAntiPornModel.predictions] raises
    [UnboundLocalError] for [classifytype] before anything else happens: no
    number is drawn, no request is sent, nothing is printed, and the model
    is as it was. *)
Theorem X2_offline_no_task_is_unbound_classifytype :
  forall (m : OfflineAntiPornModel.t) (img : ndarray) (w : World),
    OfflineAntiPornModel._apiType m = [] ->
    OfflineAntiPornModel.predictions img (m, w)
    = (Raise (UnboundLocalError "classifytype"), (m, w)).
Proof.
  intros m img w Hm. unfold OfflineAntiPornModel.predictions.
  erewrite bind_raise
    by (apply OfflineAntiPornModel_build_request_no_task; exact Hm).
  reflexivity.
Qed.

(** X3: when the service answers a JSON object that has no ['result'] key
    (the model has tasks and a url that [urllib.request.Request] takes, so
    the request was sent), [OfflineAntiPornModel.predictions] raises
    [KeyError('result')]: the handler around the POST does not cover the
    decoding, so nothing is printed and the error reaches the caller, after
    the one request was sent. *)
Theorem X3_offline_answer_without_result_is_KeyError :
  forall (m : OfflineAntiPornModel.t) (img : ndarray) (w : World)
         (init : list string) (final : string)
         (response : bytes) (text : string) (d : pydict),
    OfflineAntiPornModel._apiType m = (init ++ [final])%list ->
    Request_refuses (OfflineAntiPornModel.url m) = None ->
    urlopen_reply (remote w) (List.length (calls w))
      (post_of (OfflineAntiPornModel.url m) (request_for img init final)
         (next_logid w)) = Answer response ->
    decode_utf8 response = Some text ->
    json_loads text = Some (PyDict d) ->
    dict_get "result" d = None ->
    let out := OfflineAntiPornModel.predictions img (m, w) in
    fst out = Raise (KeyError "result")
    /\ fst (snd out) = m
    /\ stdout (snd (snd out)) = stdout w
    /\ calls (snd (snd out))
       = (calls w ++ [Call_urlopen
                        (post_of (OfflineAntiPornModel.url m)
                           (request_for img init final) (next_logid w))])%list.
Proof.
  intros m img w init final response text d Hm Hurl Hreply Htext Hloads Hget out.
  subst out.
  rewrite (OfflineAntiPornModel_predictions_tasks m img w init final Hm Hurl).
  cbv zeta. rewrite Hreply.
  unfold OfflineAntiPornModel.decode_response, and_then.
  rewrite Htext, Hloads. cbn [getitem]. rewrite Hget.
  repeat split.
Qed.

Lemma dict_get_set_same (key : string) (v : pyobj) (d : pydict) :
  dict_get key (dict_set key v d) = Some v.
Proof.
  induction d as [|[k x] d IH]; simpl.
  - rewrite String.eqb_refl. reflexivity.
  - destruct (String.eqb k key) eqn:Hk; simpl; rewrite Hk; [reflexivity | exact IH].
Qed.

Lemma dict_get_set_other (key other : string) (v : pyobj) (d : pydict) :
  other <> key -> dict_get other (dict_set key v d) = dict_get other d.
Proof.
  intros Hneq. induction d as [|[k x] d IH]; simpl.
  - apply String.eqb_neq in Hneq. rewrite String.eqb_sym, Hneq. reflexivity.
  - destruct (String.eqb k key) eqn:Hk; simpl.
    + apply String.eqb_eq in Hk. subst k.
      apply String.eqb_neq in Hneq. rewrite String.eqb_sym, Hneq. reflexivity.
    + destruct (String.eqb k other); [reflexivity | exact IH].
Qed.

Lemma dict_set_keys (key : string) (v x : pyobj) (d : pydict) :
  dict_get key d = Some x -> map fst (dict_set key v d) = map fst d.
Proof.
  induction d as [|[k y] d IH]; simpl.
  - discriminate.
  - destruct (String.eqb k key); simpl.
    + reflexivity.
    + intros H. rewrite (IH H). reflexivity.
Qed.

(** X4: a value [OfflineAntiPornModel.predictions] returns is the JSON
    object the service answered to the request of this invocation, changed
    in one place: it has the same keys in the same order, every entry but
    ['result'] is the answer's, and ['result'] holds the dict form of the
    message parsed from the base64 decoding of the answer's ['result']. *)
Theorem X4_offline_result_replaced_in_place :
  forall (m : OfflineAntiPornModel.t) (img : ndarray) (w : World) (v : pyobj),
    fst (OfflineAntiPornModel.predictions img (m, w)) = Ok v ->
    exists (req : Request) (sent : OfflineAntiPornModel.t * World)
           (response : bytes) (text : string) (answer returned : pydict)
           (encoded : pyobj) (raw : bytes) (pb : message),
      OfflineAntiPornModel.build_request img (m, w) = (Ok req, sent)
      /\ urlopen_reply (remote (snd sent)) (List.length (calls (snd sent))) req
         = Answer response
      /\ decode_utf8 response = Some text
      /\ json_loads text = Some (PyDict answer)
      /\ dict_get "result" answer = Some encoded
      /\ OfflineAntiPornModel.py_b64decode encoded = Ok raw
      /\ ParseFromString raw = Some pb
      /\ v = PyDict returned
      /\ map fst returned = map fst answer
      /\ dict_get "result" returned = Some (PyDict (protobuf_to_dict pb))
      /\ (forall key, key <> "result" ->
                      dict_get key returned = dict_get key answer).
Proof.
  intros m img w v.
  unfold OfflineAntiPornModel.predictions, bind.
  destruct (OfflineAntiPornModel.build_request img (m, w))
    as [[req|e] s1]; [|discriminate].
  unfold try_except, bind, in_world, urlopen_read, issue, print, ret.
  cbn [fst snd].
  destruct (urlopen_reply (remote (snd s1)) (List.length (calls (snd s1))) req)
    as [response|msg] eqn:Hreply; cbn [of_reply fst snd lift_result raise];
    [|discriminate].
  intros Hv. apply decode_response_ok in Hv.
  destruct Hv
    as (text & d & encoded & raw & pb & Htext & Hloads & Hget & Hraw & Hpb & ->).
  exists req, s1, response, text, d,
         (dict_set "result" (PyDict (protobuf_to_dict pb)) d), encoded, raw, pb.
  split; [reflexivity|]. split; [exact Hreply|].
  split; [exact Htext|]. split; [exact Hloads|]. split; [exact Hget|].
  split; [exact Hraw|]. split; [exact Hpb|]. split; [reflexivity|].
  split; [eapply dict_set_keys; exact Hget|].
  split; [apply dict_get_set_same|].
  intros key Hkey. apply dict_get_set_other. exact Hkey.
Qed.

End OfflineExtras.

(** ** What an invocation does to the world *)

Section OfflineEffects.
Context {F : Foreign}.

Lemma offline_sent_bodies (m : OfflineAntiPornModel.t) (img : ndarray) (w : World)
    (init : list string) (final : string) :
  OfflineAntiPornModel._apiType m = (init ++ [final])%list ->
  Request_refuses (OfflineAntiPornModel.url m) = None ->
  sent_bodies (issued_by (OfflineAntiPornModel.predictions img) m w)
  = [data (post_of (OfflineAntiPornModel.url m) (request_for img init final)
             (next_logid w))].
Proof.
  intros Hm Hurl. unfold issued_by.
  rewrite (OfflineAntiPornModel_predictions_tasks m img w init final Hm Hurl).
  cbv zeta.
  destruct (urlopen_reply (remote w) (List.length (calls w))
              (post_of (OfflineAntiPornModel.url m) (request_for img init final)
                 (next_logid w)));
    cbn [fst snd with_stdout with_calls calls];
    rewrite skipn_length_app; reflexivity.
Qed.

Lemma offline_sent_bodies_refused (m : OfflineAntiPornModel.t) (img : ndarray)
    (w : World) (init : list string) (final msg : string) :
  OfflineAntiPornModel._apiType m = (init ++ [final])%list ->
  Request_refuses (OfflineAntiPornModel.url m) = Some msg ->
  sent_bodies (issued_by (OfflineAntiPornModel.predictions img) m w) = [].
Proof.
  intros Hm Hurl. unfold issued_by.
  rewrite (OfflineAntiPornModel_predictions_tasks_refused m img w init final Hm Hurl).
  cbn [fst snd after_logid with_random calls].
  rewrite <- (app_nil_r (calls w)) at 2.
  rewrite skipn_length_app. reflexivity.
Qed.

Lemma post_of_data_inj (url : string) (proto_data : GeneralClassifyRequest)
    (l1 l2 : Z) :
  data (post_of url proto_data l1) = data (post_of url proto_data l2) -> l1 = l2.
Proof.
  intros H.
  eapply req_array_dumps_inj. apply list_byte_of_string_inj. exact H.
Qed.

(** X5: two invocations of [OfflineAntiPornModel.predictions] on one image
    and one model whose url [urllib.request.Request] takes send the same
    body exactly when they draw the same [logid]: the body determines the
    [logid].  With a url [Request] does not take, neither invocation sends
    anything, whatever the two draws are. *)
Theorem X5_offline_same_body_iff_same_logid :
  forall (m : OfflineAntiPornModel.t) (img : ndarray) (wa wb : World)
         (init : list string) (final : string),
    OfflineAntiPornModel._apiType m = (init ++ [final])%list ->
    match Request_refuses (OfflineAntiPornModel.url m) with
    | None =>
        sent_bodies (issued_by (OfflineAntiPornModel.predictions img) m wa)
        = sent_bodies (issued_by (OfflineAntiPornModel.predictions img) m wb)
        <-> next_logid wa = next_logid wb
    | Some _ =>
        sent_bodies (issued_by (OfflineAntiPornModel.predictions img) m wa) = []
        /\ sent_bodies (issued_by (OfflineAntiPornModel.predictions img) m wb)
           = []
    end.
Proof.
  intros m img wa wb init final Hm.
  destruct (Request_refuses (OfflineAntiPornModel.url m)) as [msg|] eqn:Hurl.
  - split; exact (offline_sent_bodies_refused m img _ init final Hm Hurl).
  - rewrite !(offline_sent_bodies m img _ init final Hm Hurl).
    split.
    + intros H.
      apply (@post_of_data_inj (OfflineAntiPornModel.url m)
               (request_for img init final) (next_logid wa) (next_logid wb)).
      exact (f_equal (fun l => hd [] l) H).
    + intros ->. reflexivity.
Qed.

(** X6: what an invocation of [OfflineAntiPornModel.predictions] (on a
    model with tasks) does to the world besides the POST: it draws exactly
    one number from the [random] module's generator and leaves the
    environment alone; when [urllib.request.Request] takes the url it prints
    one line if the POST raises and nothing if it answers; when [Request]
    does not take the url its [ValueError] is raised outside the handler, so
    nothing is printed. *)
Theorem X6_offline_draws_once_and_prints_on_failure :
  forall (m : OfflineAntiPornModel.t) (img : ndarray) (w : World)
         (init : list string) (final : string),
    OfflineAntiPornModel._apiType m = (init ++ [final])%list ->
    let w' := snd (snd (OfflineAntiPornModel.predictions img (m, w))) in
    stream (random w') = stream (random w)
    /\ position (random w') = S (position (random w))
    /\ environ w' = environ w
    /\ match Request_refuses (OfflineAntiPornModel.url m) with
       | Some _ => stdout w' = stdout w
       | None =>
           match urlopen_reply (remote w) (List.length (calls w))
                   (post_of (OfflineAntiPornModel.url m)
                      (request_for img init final) (next_logid w)) with
           | Answer _ => stdout w' = stdout w
           | Fault msg => stdout w' = (stdout w ++ [msg])%list
           end
       end.
Proof.
  intros m img w init final Hm w'. subst w'.
  destruct (Request_refuses (OfflineAntiPornModel.url m)) as [msg|] eqn:Hurl.
  - rewrite (OfflineAntiPornModel_predictions_tasks_refused m img w init final Hm Hurl).
    cbn [fst snd after_logid with_random random stdout environ].
    unfold draw, randint_request; cbn [snd stream position].
    rewrite Nat.add_1_r. repeat split.
  - rewrite (OfflineAntiPornModel_predictions_tasks m img w init final Hm Hurl).
    cbv zeta.
    destruct (urlopen_reply (remote w) (List.length (calls w))
                (post_of (OfflineAntiPornModel.url m) (request_for img init final)
                   (next_logid w)));
      cbn [fst snd with_stdout with_calls after_logid with_random random stdout
           environ];
      unfold draw, randint_request; cbn [snd stream position];
      rewrite Nat.add_1_r; repeat split.
Qed.

End OfflineEffects.

Section VendorExtras.
Context {F : Foreign}.

(** X7: the SDK wrappers have no handler: when the vendor call of
    [AipAntiPornModel], [GoogleSafeSearchModel],
    [GoogleObjectDetectionModel] or [GoogleOCRModel] raises, [predictions]
    raises that same exception, prints nothing, and the call was issued
    once. *)
Theorem X7_vendor_exception_reaches_the_caller :
  (forall (m : AipAntiPornModel.t) (img : ndarray) (w : World) (msg : string),
      antiPorn_reply (remote w) (List.length (calls w))
        (AipAntiPornModel.model m) (ndarray_to_bytes img) = Fault msg ->
      AipAntiPornModel.predictions img (m, w)
      = (Raise (VendorError msg),
         (m, with_calls (calls w ++ [Call_antiPorn (AipAntiPornModel.model m)
                                       (ndarray_to_bytes img)])%list w)))
  /\ (forall (m : GoogleSafeSearchModel.t) (img : ndarray) (w : World) (msg : string),
      safe_search_detection_reply (remote w) (List.length (calls w))
        (GoogleSafeSearchModel.model m) {| content := ndarray_to_bytes img |}
      = Fault msg ->
      GoogleSafeSearchModel.predictions img (m, w)
      = (Raise (VendorError msg),
         (m, with_calls
               (calls w ++ [Call_safe_search_detection
                              (GoogleSafeSearchModel.model m)
                              {| content := ndarray_to_bytes img |}])%list w)))
  /\ (forall (m : GoogleObjectDetectionModel.t) (img : ndarray) (w : World)
             (msg : string),
      object_localization_reply (remote w) (List.length (calls w))
        (GoogleObjectDetectionModel.model m) {| content := ndarray_to_bytes img |}
      = Fault msg ->
      GoogleObjectDetectionModel.predictions img (m, w)
      = (Raise (VendorError msg),
         (m, with_calls
               (calls w ++ [Call_object_localization
                              (GoogleObjectDetectionModel.model m)
                              {| content := ndarray_to_bytes img |}])%list w)))
  /\ (forall (m : GoogleOCRModel.t) (img : ndarray) (w : World) (msg : string),
      object_localization_reply (remote w) (List.length (calls w))
        (GoogleOCRModel.model m) {| content := ndarray_to_bytes img |}
      = Fault msg ->
      GoogleOCRModel.predictions img (m, w)
      = (Raise (VendorError msg),
         (m, with_calls
               (calls w ++ [Call_object_localization (GoogleOCRModel.model m)
                              {| content := ndarray_to_bytes img |}])%list w))).
Proof.
  split; [|split; [|split]]; intros m img w msg Hreply.
  - rewrite AipAntiPornModel_predictions_run. cbv zeta. rewrite Hreply. reflexivity.
  - rewrite GoogleSafeSearchModel_predictions_run. cbv zeta. rewrite Hreply.
    reflexivity.
  - rewrite GoogleObjectDetectionModel_predictions_run. cbv zeta. rewrite Hreply.
    reflexivity.
  - rewrite GoogleOCRModel_predictions_run. cbv zeta. rewrite Hreply. reflexivity.
Qed.

(** X8: when the vision response has no [safe_search_annotation] (an error
    response, say), [GoogleSafeSearchModel.predictions] raises
    [KeyError('safe_search_annotation')]: [protobuf_to_dict] has entries for
    the set fields only. *)
Theorem X8_safe_search_without_annotation_is_KeyError :
  forall (m : GoogleSafeSearchModel.t) (img : ndarray) (w : World)
         (response : message),
    safe_search_detection_reply (remote w) (List.length (calls w))
      (GoogleSafeSearchModel.model m) {| content := ndarray_to_bytes img |}
    = Answer response ->
    message_get "safe_search_annotation" response = None ->
    fst (GoogleSafeSearchModel.predictions img (m, w))
    = Raise (KeyError "safe_search_annotation").
Proof.
  intros m img w response Hreply Hget.
  rewrite GoogleSafeSearchModel_predictions_run. cbv zeta.
  rewrite Hreply, Hget. reflexivity.
Qed.

Lemma annotation_dicts_shape (items : list pbvalue) :
  forall acc ds,
    annotation_dicts items acc = Ok ds ->
    forallb is_dict acc = true ->
    forallb is_dict ds = true
    /\ List.length ds = (List.length acc + List.length items)%nat.
Proof.
  induction items as [|item items IH]; intros acc ds; simpl.
  - intros H Hacc. injection H as <-. split; [exact Hacc | lia].
  - destruct item as [x|fields|xs]; simpl; try discriminate.
    intros H Hacc.
    destruct (IH _ _ H) as [Hds Hlen].
    + rewrite forallb_app, Hacc. reflexivity.
    + split; [exact Hds|]. rewrite Hlen, length_app. simpl. lia.
Qed.

(** X9: a value [GoogleObjectDetectionModel.predictions] or
    [GoogleOCRModel.predictions] returns is a list of dicts with one dict
    per localized object of the response, and it is the empty list when the
    response has no [localized_object_annotations]. *)
Theorem X9_object_localization_returns_one_dict_per_object :
  (forall (m : GoogleObjectDetectionModel.t) (img : ndarray) (w : World)
          (whole : message),
      object_localization_reply (remote w) (List.length (calls w))
        (GoogleObjectDetectionModel.model m) {| content := ndarray_to_bytes img |}
      = Answer whole ->
      (message_get "localized_object_annotations" whole = None ->
       fst (GoogleObjectDetectionModel.predictions img (m, w)) = Ok (PyList []))
      /\ (forall v,
             fst (GoogleObjectDetectionModel.predictions img (m, w)) = Ok v ->
             exists items ds,
               repeated_field "localized_object_annotations" whole = Ok items
               /\ v = PyList ds
               /\ is_list_of_dicts v = true
               /\ List.length ds = List.length items))
  /\ (forall (m : GoogleOCRModel.t) (img : ndarray) (w : World) (whole : message),
      object_localization_reply (remote w) (List.length (calls w))
        (GoogleOCRModel.model m) {| content := ndarray_to_bytes img |}
      = Answer whole ->
      (message_get "localized_object_annotations" whole = None ->
       fst (GoogleOCRModel.predictions img (m, w)) = Ok (PyList []))
      /\ (forall v,
             fst (GoogleOCRModel.predictions img (m, w)) = Ok v ->
             exists items ds,
               repeated_field "localized_object_annotations" whole = Ok items
               /\ v = PyList ds
               /\ is_list_of_dicts v = true
               /\ List.length ds = List.length items)).
Proof.
  split; intros m img w whole Hreply.
  - rewrite GoogleObjectDetectionModel_predictions_run. cbv zeta.
    rewrite Hreply. cbn [fst]. unfold repeated_field. split.
    + intros Hnone. rewrite Hnone. reflexivity.
    + intros v.
      destruct (match message_get "localized_object_annotations" whole with
                | Some (PbRepeated items) => Ok items
                | Some _ => Raise TypeError
                | None => Ok []
                end) as [items|e]; [|discriminate].
      destruct (annotation_dicts items []) as [ds|e] eqn:Hds; [|discriminate].
      intros Hv. injection Hv as <-.
      destruct (annotation_dicts_shape _ _ Hds eq_refl) as [Hshape Hlen].
      exists items, ds. repeat split; assumption.
  - rewrite GoogleOCRModel_predictions_run. cbv zeta.
    rewrite Hreply. cbn [fst]. unfold repeated_field. split.
    + intros Hnone. rewrite Hnone. reflexivity.
    + intros v.
      destruct (match message_get "localized_object_annotations" whole with
                | Some (PbRepeated items) => Ok items
                | Some _ => Raise TypeError
                | None => Ok []
                end) as [items|e]; [|discriminate].
      destruct (annotation_dicts items []) as [ds|e] eqn:Hds; [|discriminate].
      intros Hv. injection Hv as <-.
      destruct (annotation_dicts_shape _ _ Hds eq_refl) as [Hshape Hlen].
      exists items, ds. repeat split; assumption.
Qed.

(** X10: the SDK wrappers touch nothing in the world but the log of calls:
    [predictions] of [AipAntiPornModel], [GoogleSafeSearchModel],
    [GoogleObjectDetectionModel] and [GoogleOCRModel] read no environment
    variable, draw no random number, print nothing and create no client,
    however the call ends. *)
Theorem X10_sdk_wrappers_only_log_a_call :
  let quiet (w w' : World) :=
    environ w' = environ w /\ random w' = random w /\ stdout w' = stdout w
    /\ clients w' = clients w /\ remote w' = remote w in
  (forall (m : AipAntiPornModel.t) (img : ndarray) (w : World),
      quiet w (snd (snd (AipAntiPornModel.predictions img (m, w)))))
  /\ (forall (m : GoogleSafeSearchModel.t) (img : ndarray) (w : World),
      quiet w (snd (snd (GoogleSafeSearchModel.predictions img (m, w)))))
  /\ (forall (m : GoogleObjectDetectionModel.t) (img : ndarray) (w : World),
      quiet w (snd (snd (GoogleObjectDetectionModel.predictions img (m, w)))))
  /\ (forall (m : GoogleOCRModel.t) (img : ndarray) (w : World),
      quiet w (snd (snd (GoogleOCRModel.predictions img (m, w))))).
Proof.
  cbv zeta. split; [|split; [|split]]; intros m img w.
  - rewrite AipAntiPornModel_predictions_run. repeat split.
  - rewrite GoogleSafeSearchModel_predictions_run. repeat split.
  - rewrite GoogleObjectDetectionModel_predictions_run. repeat split.
  - rewrite GoogleOCRModel_predictions_run. repeat split.
Qed.

End VendorExtras.

(** ** More on the constructors *)

Section ConstructorExtras.
Context {F : Foreign}.

Lemma AipAntiPornModel_init_run
    (credential a b c bounds : pyobj) (channel_axis : Z) (preprocessing : pyobj)
    (w : World) :
  iter_items credential = Ok [a; b; c] ->
  AipAntiPornModel.__init__ credential bounds channel_axis preprocessing w
  = match new_AipImageCensor a b c with
    | Ok client =>
        (Ok {| AipAntiPornModel.super :=
                 {| AipModel.base :=
                      {| Model._bounds := bounds;
                         Model._channel_axis := channel_axis;
                         Model._preprocessing := preprocessing |};
                    AipModel._appId := a;
                    AipModel._apiKey := b;
                    AipModel._secretKey := c |};
               AipAntiPornModel._task := "cls";
               AipAntiPornModel.model := client |}, w)
    | Raise e => (Raise e, w)
    end.
Proof.
  intros Hitems.
  unfold AipAntiPornModel.__init__, AipModel.__init__, Model.__init__,
    bind, ret, lift_result, unpack3.
  rewrite Hitems. cbn [AipModel._appId AipModel._apiKey AipModel._secretKey].
  destruct (new_AipImageCensor a b c); reflexivity.
Qed.

(** X11: a credential that gives three elements [a], [b], [c] reaches the
    constructor of the SDK client, which keeps each of them stripped
    ([appId.strip()], [apiKey.strip()], [secretKey.strip()], in that
    order).  When the three have a [strip] (they are [str] or [bytes]) the
    [AipAntiPornModel] is built without touching the world, its client
    holds the three stripped values, its task is ['cls'], and the call
    [predictions] then issues goes through that client; three [str] give
    their [str.strip()].  When one of them has no [strip] the constructor
    raises the [AttributeError] of the first such element, and the world is
    untouched. *)
Theorem X11_aip_client_holds_the_credential :
  forall (credential a b c bounds : pyobj) (channel_axis : Z)
         (preprocessing : pyobj) (img : ndarray) (w : World),
    iter_items credential = Ok [a; b; c] ->
    let built (a' b' c' : pyobj) :=
      exists m : AipAntiPornModel.t,
        AipAntiPornModel.__init__ credential bounds channel_axis preprocessing w
        = (Ok m, w)
        /\ AipAntiPornModel.model m
           = {| censor_appId := a'; censor_apiKey := b';
                censor_secretKey := c' |}
        /\ AipAntiPornModel.model_task (m, w) = (Ok "cls", (m, w))
        /\ calls (snd (snd (AipAntiPornModel.predictions img (m, w))))
           = (calls w
                ++ [Call_antiPorn
                      {| censor_appId := a'; censor_apiKey := b';
                         censor_secretKey := c' |}
                      (ndarray_to_bytes img)])%list in
    let refused (v : pyobj) :=
      AipAntiPornModel.__init__ credential bounds channel_axis preprocessing w
      = (Raise (AttributeError
                  ("'" ++ py_type_name v ++ "' object has no attribute 'strip'")),
         w) in
    let strips (v : pyobj) :=
      match v with PyStr _ | PyBytes _ => true | _ => false end in
    (forall a' b' c',
        py_strip a = Ok a' -> py_strip b = Ok b' -> py_strip c = Ok c' ->
        built a' b' c')
    /\ (forall sa sb sc,
           a = PyStr sa -> b = PyStr sb -> c = PyStr sc ->
           built (PyStr (str_strip sa)) (PyStr (str_strip sb))
                 (PyStr (str_strip sc)))
    /\ (strips a = false -> refused a)
    /\ (strips a = true -> strips b = false -> refused b)
    /\ (strips a = true -> strips b = true -> strips c = false -> refused c).
Proof.
  intros credential a b c bounds channel_axis preprocessing img w Hitems
    built refused strips.
  assert (Hbuilt : forall a' b' c',
             py_strip a = Ok a' -> py_strip b = Ok b' -> py_strip c = Ok c' ->
             built a' b' c').
  { intros a' b' c' Ha Hb Hc. subst built. cbv beta.
    rewrite (@AipAntiPornModel_init_run credential a b c bounds channel_axis
               preprocessing w Hitems).
    unfold new_AipImageCensor. rewrite Ha, Hb, Hc.
    eexists. split; [reflexivity|].
    split; [reflexivity|]. split; [reflexivity|].
    rewrite AipAntiPornModel_predictions_run. reflexivity. }
  split; [exact Hbuilt|].
  split; [intros sa sb sc -> -> ->; apply Hbuilt; reflexivity|].
  subst refused strips. cbv beta.
  rewrite (@AipAntiPornModel_init_run credential a b c bounds channel_axis
             preprocessing w Hitems).
  unfold new_AipImageCensor.
  split; [|split].
  - destruct a; try discriminate; intros _; reflexivity.
  - destruct a; try discriminate; intros _;
      destruct b; try discriminate; intros _; reflexivity.
  - destruct a; try discriminate; intros _;
      destruct b; try discriminate; intros _;
      destruct c; try discriminate; intros _; reflexivity.
Qed.

(** X12: [AipModel] and [AipAntiPornModel] cannot be built from a credential
    that does not give exactly three elements: the unpacking raises
    [ValueError] when it gives another number of them and [TypeError] when
    it is [None] or a number; the world is untouched. *)
Theorem X12_aip_bad_credential_is_refused :
  (forall (credential bounds : pyobj) (channel_axis : Z) (preprocessing : pyobj)
          (w : World) (items : list pyobj),
      iter_items credential = Ok items ->
      List.length items <> 3%nat ->
      exists msg,
        AipModel.__init__ credential bounds channel_axis preprocessing w
        = (Raise (ValueError msg), w)
        /\ AipAntiPornModel.__init__ credential bounds channel_axis
             preprocessing w
           = (Raise (ValueError msg), w))
  /\ (forall (credential bounds : pyobj) (channel_axis : Z) (preprocessing : pyobj)
             (w : World),
      (credential = PyNone \/ (exists z, credential = PyInt z)
       \/ (exists r, credential = PyFloat r) \/ (exists t, credential = PyBool t)) ->
      AipModel.__init__ credential bounds channel_axis preprocessing w
      = (Raise TypeError, w)
      /\ AipAntiPornModel.__init__ credential bounds channel_axis
           preprocessing w
         = (Raise TypeError, w)).
Proof.
  split.
  - intros credential bounds channel_axis preprocessing w items Hitems Hlen.
    unfold AipAntiPornModel.__init__, AipModel.__init__, Model.__init__,
      bind, ret, lift_result, unpack3.
    rewrite Hitems.
    destruct items as [|a [|b [|c [|d items]]]];
      try (eexists; split; reflexivity).
    exfalso. apply Hlen. reflexivity.
  - intros credential bounds channel_axis preprocessing w
      [-> | [[z ->] | [[r ->] | [t ->]]]]; split; reflexivity.
Qed.

(** X13: the constructors of the three Google wrappers check the
    environment first: without [GOOGLE_APPLICATION_CREDENTIALS] they raise
    [AssertionError] and nothing else has happened (no SDK client was
    created); with it they create one client, and an exception of the SDK
    at that point reaches the caller. *)
Theorem X13_google_constructors_assert_before_the_client :
  forall (bounds : pyobj) (channel_axis : Z) (preprocessing : pyobj) (w : World),
    let base := {| Model._bounds := bounds; Model._channel_axis := channel_axis;
                   Model._preprocessing := preprocessing |} in
    let super := {| GoogleCloudModel.base := base |} in
    match environ_get "GOOGLE_APPLICATION_CREDENTIALS" (environ w),
          annotator_client_reply (remote w) (clients w) with
    | None, _ =>
        GoogleSafeSearchModel.__init__ bounds channel_axis preprocessing w
        = (Raise (AssertionError
                    " Credential GOOGLE_APPLICATION_CREDENTIALS needs to be set."),
           w)
        /\ GoogleObjectDetectionModel.__init__ bounds channel_axis preprocessing w
           = (Raise (AssertionError
                       " Credential GOOGLE_APPLICATION_CREDENTIALS needs to be set."),
              w)
        /\ GoogleOCRModel.__init__ bounds channel_axis preprocessing w
           = (Raise (AssertionError
                       " Credential GOOGLE_APPLICATION_CREDENTIALS needs to be set."),
              w)
    | Some _, Fault msg =>
        GoogleSafeSearchModel.__init__ bounds channel_axis preprocessing w
        = (Raise (VendorError msg), w)
        /\ GoogleObjectDetectionModel.__init__ bounds channel_axis preprocessing w
           = (Raise (VendorError msg), w)
        /\ GoogleOCRModel.__init__ bounds channel_axis preprocessing w
           = (Raise (VendorError msg), w)
    | Some _, Answer _ =>
        let client := {| annotator_id := clients w |} in
        let w' := with_clients (S (clients w)) w in
        GoogleSafeSearchModel.__init__ bounds channel_axis preprocessing w
        = (Ok {| GoogleSafeSearchModel.super := super;
                 GoogleSafeSearchModel._task := "cls";
                 GoogleSafeSearchModel.model := client |}, w')
        /\ GoogleObjectDetectionModel.__init__ bounds channel_axis preprocessing w
           = (Ok {| GoogleObjectDetectionModel.super := super;
                    GoogleObjectDetectionModel.model := client;
                    GoogleObjectDetectionModel._task := "det" |}, w')
        /\ GoogleOCRModel.__init__ bounds channel_axis preprocessing w
           = (Ok {| GoogleOCRModel.super := super;
                    GoogleOCRModel.model := client |}, w')
    end.
Proof.
  intros bounds channel_axis preprocessing w base super.
  unfold GoogleSafeSearchModel.__init__, GoogleObjectDetectionModel.__init__,
    GoogleOCRModel.__init__, bind.
  rewrite !GoogleCloudModel_init_run.
  destruct (environ_get "GOOGLE_APPLICATION_CREDENTIALS" (environ w)) as [path|].
  - unfold new_ImageAnnotatorClient.
    destruct (annotator_client_reply (remote w) (clients w)) as [[]|msg];
      repeat split.
  - repeat split.
Qed.

(** X14: [model_task] of a model fresh from its constructor is ['cls'] for
    [AipAntiPornModel], [GoogleSafeSearchModel] and [OfflineAntiPornModel]
    and ['det'] for [GoogleObjectDetectionModel], and asking for it changes
    neither the model nor the world. *)
Theorem X14_model_task_of_a_new_model :
  (forall (credential bounds : pyobj) (channel_axis : Z) (preprocessing : pyobj)
          (w w' : World) (m : AipAntiPornModel.t),
      AipAntiPornModel.__init__ credential bounds channel_axis preprocessing w
      = (Ok m, w') ->
      AipAntiPornModel.model_task (m, w') = (Ok "cls", (m, w')))
  /\ (forall (bounds : pyobj) (channel_axis : Z) (preprocessing : pyobj)
             (w w' : World) (m : GoogleSafeSearchModel.t),
      GoogleSafeSearchModel.__init__ bounds channel_axis preprocessing w
      = (Ok m, w') ->
      GoogleSafeSearchModel.model_task (m, w') = (Ok "cls", (m, w')))
  /\ (forall (bounds : pyobj) (channel_axis : Z) (preprocessing : pyobj)
             (w w' : World) (m : GoogleObjectDetectionModel.t),
      GoogleObjectDetectionModel.__init__ bounds channel_axis preprocessing w
      = (Ok m, w') ->
      GoogleObjectDetectionModel.model_task (m, w') = (Ok "det", (m, w')))
  /\ (forall (url : string) (bounds : pyobj) (channel_axis : Z)
             (preprocessing : pyobj) (w w' : World) (m : OfflineAntiPornModel.t),
      OfflineAntiPornModel.__init__ url bounds channel_axis preprocessing w
      = (Ok m, w') ->
      OfflineAntiPornModel.model_task (m, w') = (Ok "cls", (m, w'))).
Proof.
  split; [|split; [|split]].
  - intros credential bounds channel_axis preprocessing w w' m.
    unfold AipAntiPornModel.__init__, AipModel.__init__, Model.__init__,
      bind, ret, lift_result, unpack3.
    destruct (iter_items credential) as [[|a [|b [|c [|d items]]]]|e];
      try discriminate.
    cbn [AipModel._appId AipModel._apiKey AipModel._secretKey].
    destruct (new_AipImageCensor a b c) as [client|e]; [|discriminate].
    intros H. injection H as <- <-. reflexivity.
  - intros bounds channel_axis preprocessing w w' m.
    unfold GoogleSafeSearchModel.__init__, bind.
    rewrite GoogleCloudModel_init_run.
    destruct (environ_get "GOOGLE_APPLICATION_CREDENTIALS" (environ w));
      [|discriminate].
    destruct (new_ImageAnnotatorClient w) as [[client|e] w1]; [|discriminate].
    intros H. injection H as <- <-. reflexivity.
  - intros bounds channel_axis preprocessing w w' m.
    unfold GoogleObjectDetectionModel.__init__, bind.
    rewrite GoogleCloudModel_init_run.
    destruct (environ_get "GOOGLE_APPLICATION_CREDENTIALS" (environ w));
      [|discriminate].
    destruct (new_ImageAnnotatorClient w) as [[client|e] w1]; [|discriminate].
    intros H. injection H as <- <-. reflexivity.
  - intros url bounds channel_axis preprocessing w w' m.
    rewrite OfflineAntiPornModel_init_run.
    intros H. injection H as <- <-. reflexivity.
Qed.

End ConstructorExtras.

(** ** More on seeding *)

Section SeedingExtras.
Context {G : Rngs.Algorithms}.

(** X15: a seed below 0 or above 2**32 - 1 leaves the module half seeded:
    [set_seeds] has seeded [rng] with it when [nprng.seed] raises
    [ValueError], and [nprng] is as it was. *)
Theorem X15_set_seeds_out_of_range_seeds_rng_only :
  forall (seed : Z) (st : Rngs.State),
    seed < 0 \/ 4294967295 < seed ->
    Rngs.set_seeds seed st
    = (Raise (ValueError "Seed must be between 0 and 2**32 - 1"),
       {| Rngs.rng := {| stream := Rngs.Random_stream seed; position := 0 |};
          Rngs.nprng := Rngs.nprng st |}).
Proof.
  intros seed st Hseed.
  unfold Rngs.set_seeds, bind, Rngs.rng_seed, Rngs.nprng_seed,
    Rngs.Random_seed, Rngs.RandomState_seed.
  cbn [Rngs.rng Rngs.nprng].
  replace ((0 <=? seed) && (seed <=? 4294967295)) with false; [reflexivity|].
  symmetry. apply andb_false_iff.
  destruct Hseed; [left | right]; apply Z.leb_gt; lia.
Qed.

Lemma draws_total {V} (reqs : list (Rngs.source * request V)) :
  forall st, exists vs st', Rngs.draws reqs st = (Ok vs, st').
Proof.
  induction reqs as [|[src req] reqs IH]; intros st; simpl.
  - exists [], st. reflexivity.
  - unfold bind, Rngs.draw_from.
    destruct src.
    + destruct (draw req (Rngs.rng st)) as [v g].
      destruct (IH {| Rngs.rng := g; Rngs.nprng := Rngs.nprng st |})
        as (vs & st' & ->).
      eexists. eexists. reflexivity.
    + destruct (draw req (Rngs.nprng st)) as [v g].
      destruct (IH {| Rngs.rng := Rngs.rng st; Rngs.nprng := g |})
        as (vs & st' & ->).
      eexists. eexists. reflexivity.
Qed.

(** X16: seeding again starts over: for seeds from 0 to 2**32 - 1, after
    [set_seeds(s1)] and any draws, [set_seeds(s2)] leaves the module as
    [set_seeds(s2)] alone does, so the draws that follow are those of a
    fresh [set_seeds(s2)]; with [s1 = s2] the values are replayed. *)
Theorem X16_set_seeds_starts_over :
  forall (V : Type) (s1 s2 : Z) (st : Rngs.State)
         (before after : list (Rngs.source * request V)),
    0 <= s1 <= 4294967295 ->
    0 <= s2 <= 4294967295 ->
    fst (bind (Rngs.set_seeds s1)
              (fun _ => bind (Rngs.draws before)
                             (fun _ => bind (Rngs.set_seeds s2)
                                            (fun _ => Rngs.draws after))) st)
    = fst (bind (Rngs.set_seeds s2) (fun _ => Rngs.draws after) st).
Proof.
  intros V s1 s2 st before after H1 H2.
  unfold bind at 1. rewrite (set_seeds_run st H1).
  unfold bind at 1.
  destruct (draws_total before
              {| Rngs.rng := {| stream := Rngs.Random_stream s1; position := 0 |};
                 Rngs.nprng :=
                   {| stream := Rngs.RandomState_stream s1; position := 0 |} |})
    as (vs & st' & ->).
  unfold bind. rewrite !set_seeds_run by exact H2. reflexivity.
Qed.

End SeedingExtras.

(** ** Base64 *)

Lemma list_ind3 {A} (P : list A -> Prop) :
  P [] -> (forall a, P [a]) -> (forall a b, P [a; b]) ->
  (forall a b c rest, P rest -> P (a :: b :: c :: rest)) ->
  forall l, P l.
Proof.
  intros H0 H1 H2 H3.
  assert (H : forall l, P l /\ (forall a, P (a :: l)) /\ (forall a b, P (a :: b :: l))).
  { induction l as [|x l (IH0 & IH1 & IH2)].
    - repeat split; auto.
    - repeat split; auto. }
  intros l. apply H.
Qed.

Lemma b64_value_digit (n : N) :
  (n < 64)%N -> Sample.b64_value (b64_digit n) = Some n.
Proof.
  intros Hn.
  rewrite <- (N2Nat.id n).
  assert (Hk : (N.to_nat n < 64)%nat) by lia.
  generalize dependent (N.to_nat n). clear. intros k Hk.
  do 64 (destruct k as [|k]; [reflexivity|]). lia.
Qed.

Lemma byte_of_to_N (b : byte) : Sample.byte_of_N (Byte.to_N b) = b.
Proof. unfold Sample.byte_of_N. rewrite Byte.of_to_N. reflexivity. Qed.

Lemma b64_group (x y z : N) :
  (x <= 255 -> y <= 255 -> z <= 255 ->
   x / 4 < 64
   /\ (x mod 4) * 16 + y / 16 < 64
   /\ (y mod 16) * 4 + z / 64 < 64
   /\ z mod 64 < 64
   /\ (x / 4) * 4 + ((x mod 4) * 16 + y / 16) / 16 = x
   /\ (((x mod 4) * 16 + y / 16) mod 16) * 16
      + ((y mod 16) * 4 + z / 64) / 4 = y
   /\ (((y mod 16) * 4 + z / 64) mod 4) * 64 + z mod 64 = z)%N.
Proof.
  intros Hx Hy Hz.
  repeat split; zify; Z.to_euclidean_division_equations; lia.
Qed.

Lemma b64_pad_value : Sample.b64_value b64_pad = None.
Proof. reflexivity. Qed.

(** X17: [b64encode] loses nothing: the strict decoder of the sample
    instance gives back the bytes that were encoded, so two different
    serialized requests never give the same ['data'] field. *)
Theorem X17_b64encode_decodes_back :
  (forall payload : bytes, Sample.unbase64 (b64encode payload) = Some payload)
  /\ (forall a b : bytes, b64encode a = b64encode b -> a = b).
Proof.
  assert (Hback : forall payload : bytes,
             Sample.unbase64 (b64encode payload) = Some payload).
  { intros payload.
    induction payload as [|x|x y|x y z rest IH] using list_ind3.
    - reflexivity.
    - pose proof (Byte.to_N_bounded x) as Hx.
      destruct (@b64_group (Byte.to_N x) 0 0 Hx) as (H1 & H2 & _ & _ & H5 & _);
        [lia | lia |].
      rewrite N.add_0_r in H2. cbn [b64encode Sample.unbase64].
      rewrite (b64_value_digit H1), (b64_value_digit H2), b64_pad_value.
      change (Byte.eqb b64_pad b64_pad) with true. cbn [andb].
      change (0 / 16)%N with 0%N in H5. rewrite N.add_0_r in H5.
      rewrite H5, byte_of_to_N. reflexivity.
    - pose proof (Byte.to_N_bounded x) as Hx.
      pose proof (Byte.to_N_bounded y) as Hy.
      destruct (@b64_group (Byte.to_N x) (Byte.to_N y) 0 Hx Hy)
        as (H1 & H2 & H3 & _ & H5 & H6 & _); [lia |].
      change (0 / 64)%N with 0%N in H3, H6.
      rewrite N.add_0_r in H3, H6.
      cbn [b64encode Sample.unbase64].
      rewrite (b64_value_digit H1), (b64_value_digit H2),
        (b64_value_digit H3), b64_pad_value.
      change (Byte.eqb b64_pad b64_pad) with true. cbv iota.
      rewrite H5, H6, !byte_of_to_N. reflexivity.
    - pose proof (Byte.to_N_bounded x) as Hx.
      pose proof (Byte.to_N_bounded y) as Hy.
      pose proof (Byte.to_N_bounded z) as Hz.
      destruct (@b64_group (Byte.to_N x) (Byte.to_N y) (Byte.to_N z) Hx Hy Hz)
        as (H1 & H2 & H3 & H4 & H5 & H6 & H7).
      cbn [b64encode Sample.unbase64].
      rewrite (b64_value_digit H1), (b64_value_digit H2),
        (b64_value_digit H3), (b64_value_digit H4).
      rewrite IH. cbn [option_map].
      rewrite H5, H6, H7, !byte_of_to_N. reflexivity. }
  split; [exact Hback|].
  intros a b H.
  pose proof (Hback a) as Ha. rewrite H, Hback in Ha.
  injection Ha as <-. reflexivity.
Qed.

Lemma b64_digit_letter (n : N) :
  existsb (Byte.eqb (b64_digit n))
          (list_byte_of_string (b64_alphabet ++ "=")) = true.
Proof.
  unfold b64_digit. generalize (N.to_nat n). intros k.
  do 64 (destruct k as [|k]; [reflexivity|]). reflexivity.
Qed.

(** X18: the base64 text [b64encode] gives has four characters for every
    three bytes, the last group padded: its length is
    [4 * ceil(len(payload) / 3)], and each of its characters is one of the 64
    letters of the alphabet or [=], so the ['data'] field needs no
    escaping but that of the slash. *)
Theorem X18_b64encode_length_and_alphabet :
  forall payload : bytes,
    List.length (b64encode payload) = (4 * ((List.length payload + 2) / 3))%nat
    /\ forallb (fun b => existsb (Byte.eqb b)
                           (list_byte_of_string (b64_alphabet ++ "=")))
               (b64encode payload) = true.
Proof.
  intros payload.
  induction payload as [|x|x y|x y z rest [IHlen IHall]] using list_ind3.
  - split; reflexivity.
  - split; [reflexivity|].
    cbn [b64encode forallb]. rewrite !b64_digit_letter. reflexivity.
  - split; [reflexivity|].
    cbn [b64encode forallb]. rewrite !b64_digit_letter. reflexivity.
  - split.
    + cbn [b64encode List.length]. rewrite IHlen.
      replace (S (S (S (List.length rest))) + 2)%nat
        with (List.length rest + 2 + 1 * 3)%nat by lia.
      rewrite Nat.div_add by discriminate. lia.
    + cbn [b64encode forallb]. rewrite !b64_digit_letter, IHall. reflexivity.
Qed.

(** ** These properties at work in the sample worlds *)

(** X1 with three tasks: only the last entry carries [topnum]; and at a url
    without a scheme. *)
Lemma X1_offline_request_for_any_tasks_witness :
  (exists (req : Request) (obj : pydict),
      OfflineAntiPornModel.build_request (F := Sample.foreign) SampleWorld.pixels
        (SampleReplies.offline_with ["antiporn"; "terror"; "ocr"], SampleWorld.world)
      = (Ok req,
         (SampleReplies.offline_with ["antiporn"; "terror"; "ocr"],
          after_logid SampleWorld.world))
      /\ full_url req = SampleWorld.service_url
      /\ headers req = [("Content-Type", "application/json")]
      /\ encode_ascii (json_dumps (PyDict obj)) = Ok (data req)
      /\ dict_get "logid" obj = Some (PyInt (next_logid SampleWorld.world))
      /\ dict_get "data" obj
         = Some (PyBytes
                   (b64encode
                      (Sample.wire_GeneralClassifyRequest
                         {| image := Some SampleWorld.pixels;
                            classify_type :=
                              [ {| type_name := Some "antiporn"; topnum := None |};
                                {| type_name := Some "terror"; topnum := None |};
                                {| type_name := Some "ocr"; topnum := Some 5 |} ] |}))))
  /\ OfflineAntiPornModel.build_request (F := Sample.foreign) SampleWorld.pixels
       (SampleWorld.offline "localhost/classify", SampleWorld.world)
     = (Raise (ValueError "unknown url type: 'localhost/classify'"),
        (SampleWorld.offline "localhost/classify", after_logid SampleWorld.world)).
Proof.
  split.
  - exact (@X1_offline_request_for_any_tasks Sample.foreign
             (SampleReplies.offline_with ["antiporn"; "terror"; "ocr"])
             SampleWorld.pixels SampleWorld.world ["antiporn"; "terror"] "ocr"
             eq_refl).
  - exact (@X1_offline_request_for_any_tasks Sample.foreign
             (SampleWorld.offline "localhost/classify")
             SampleWorld.pixels SampleWorld.world [] "antiporn" eq_refl).
Defined.

Lemma X2_offline_no_task_is_unbound_classifytype_witness :
  OfflineAntiPornModel.predictions (F := Sample.foreign) SampleWorld.pixels
    (SampleReplies.offline_with [], SampleWorld.world)
  = (Raise (UnboundLocalError "classifytype"),
     (SampleReplies.offline_with [], SampleWorld.world)).
Proof.
  apply (@X2_offline_no_task_is_unbound_classifytype Sample.foreign).
  reflexivity.
Defined.

(** X3 with a service that answers an error object. *)
Lemma X3_offline_answer_without_result_is_KeyError_witness :
  let answer := [("err_no", PyInt 3); ("err_msg", PyStr "bad request")] in
  let w := SampleReplies.answering
             (list_byte_of_string (json_dumps (PyDict answer))) in
  let m := SampleReplies.offline_with ["antiporn"] in
  let out := OfflineAntiPornModel.predictions (F := Sample.foreign)
               SampleWorld.pixels (m, w) in
  fst out = Raise (KeyError "result")
  /\ fst (snd out) = m
  /\ stdout (snd (snd out)) = stdout w
  /\ calls (snd (snd out))
     = (calls w ++ [Call_urlopen
                      (post_of (F := Sample.foreign) (OfflineAntiPornModel.url m)
                         (request_for (F := Sample.foreign) SampleWorld.pixels
                            [] "antiporn")
                         (next_logid w))])%list.
Proof.
  intros answer w m.
  apply (@X3_offline_answer_without_result_is_KeyError Sample.foreign m
           SampleWorld.pixels w [] "antiporn"
           (list_byte_of_string (json_dumps (PyDict answer)))
           (json_dumps (PyDict answer)) answer);
    vm_compute; reflexivity.
Defined.

(** X4 in the sample world: the answer is the service's at [service_url],
    and its ['result'] is the base64 of a two-field message. *)
Lemma X4_offline_result_replaced_in_place_witness :
  exists (req : Request) (sent : OfflineAntiPornModel.t * World)
         (response : bytes) (text : string) (answer returned : pydict)
         (encoded : pyobj) (raw : bytes) (pb : message),
    OfflineAntiPornModel.build_request (F := Sample.foreign) SampleWorld.pixels
      (SampleWorld.offline SampleWorld.service_url, SampleWorld.world)
    = (Ok req, sent)
    /\ urlopen_reply (remote (snd sent)) (List.length (calls (snd sent))) req
       = Answer response
    /\ decode_utf8 (Foreign := Sample.foreign) response = Some text
    /\ json_loads (Foreign := Sample.foreign) text = Some (PyDict answer)
    /\ dict_get "result" answer = Some encoded
    /\ OfflineAntiPornModel.py_b64decode (F := Sample.foreign) encoded = Ok raw
    /\ ParseFromString (Foreign := Sample.foreign) raw = Some pb
    /\ PyDict [ ("err_no", PyInt 0);
                ("result",
                 PyDict [ ("1", PyInt 1);
                          ("2", PyBytes (list_byte_of_string "abc")) ]) ]
       = PyDict returned
    /\ map fst returned = map fst answer
    /\ dict_get "result" returned = Some (PyDict (protobuf_to_dict pb))
    /\ (forall key, key <> "result" ->
                    dict_get key returned = dict_get key answer).
Proof.
  apply (@X4_offline_result_replaced_in_place Sample.foreign
           (SampleWorld.offline SampleWorld.service_url) SampleWorld.pixels
           SampleWorld.world).
  vm_compute. reflexivity.
Defined.

(** X5 in two sample worlds that differ in what was printed, and at a url
    without a scheme. *)
Lemma X5_offline_same_body_iff_same_logid_witness :
  (sent_bodies
     (issued_by (OfflineAntiPornModel.predictions (F := Sample.foreign)
                   SampleWorld.pixels)
        (SampleReplies.offline_with ["antiporn"]) SampleWorld.world)
   = sent_bodies
       (issued_by (OfflineAntiPornModel.predictions (F := Sample.foreign)
                     SampleWorld.pixels)
          (SampleReplies.offline_with ["antiporn"])
          (with_stdout ["started"] SampleWorld.world))
   <-> next_logid SampleWorld.world
       = next_logid (with_stdout ["started"] SampleWorld.world))
  /\ sent_bodies
       (issued_by (OfflineAntiPornModel.predictions (F := Sample.foreign)
                     SampleWorld.pixels)
          (SampleWorld.offline "localhost/classify") SampleWorld.world)
     = [].
Proof.
  split.
  - exact (@X5_offline_same_body_iff_same_logid Sample.foreign
             (SampleReplies.offline_with ["antiporn"]) SampleWorld.pixels
             SampleWorld.world (with_stdout ["started"] SampleWorld.world)
             [] "antiporn" eq_refl).
  - exact (proj1 (@X5_offline_same_body_iff_same_logid Sample.foreign
                    (SampleWorld.offline "localhost/classify") SampleWorld.pixels
                    SampleWorld.world SampleWorld.world [] "antiporn" eq_refl)).
Defined.

(** X6 with a service that is down: one line is printed. *)
Lemma X6_offline_draws_once_and_prints_on_failure_witness :
  let m := SampleReplies.offline_with ["antiporn"] in
  let w := SampleReplies.unreachable in
  let w' := snd (snd (OfflineAntiPornModel.predictions (F := Sample.foreign)
                        SampleWorld.pixels (m, w))) in
  stream (random w') = stream (random w)
  /\ position (random w') = S (position (random w))
  /\ environ w' = environ w
  /\ stdout w' = (stdout w ++ ["connection timed out"])%list.
Proof.
  intros m w.
  exact (@X6_offline_draws_once_and_prints_on_failure Sample.foreign m
           SampleWorld.pixels w [] "antiporn" eq_refl).
Defined.

Lemma X7_vendor_exception_reaches_the_caller_witness :
  fst (AipAntiPornModel.predictions (F := Sample.foreign) SampleWorld.pixels
         (SampleWorld.aip, SampleReplies.unreachable))
  = Raise (VendorError "connection timed out").
Proof.
  rewrite (proj1 (@X7_vendor_exception_reaches_the_caller Sample.foreign)
             SampleWorld.aip SampleWorld.pixels SampleReplies.unreachable
             "connection timed out" eq_refl).
  reflexivity.
Defined.

Lemma X8_safe_search_without_annotation_is_KeyError_witness :
  fst (GoogleSafeSearchModel.predictions (F := Sample.foreign) SampleWorld.pixels
         (SampleWorld.safe_search,
          SampleReplies.vision_answering SampleReplies.error_answer))
  = Raise (KeyError "safe_search_annotation").
Proof.
  apply (@X8_safe_search_without_annotation_is_KeyError Sample.foreign
           SampleWorld.safe_search SampleWorld.pixels
           (SampleReplies.vision_answering SampleReplies.error_answer)
           SampleReplies.error_answer);
    reflexivity.
Defined.

Lemma X9_object_localization_returns_one_dict_per_object_witness :
  fst (GoogleObjectDetectionModel.predictions (F := Sample.foreign)
         SampleWorld.pixels
         (SampleReplies.object_detection,
          SampleReplies.vision_answering SampleReplies.error_answer))
  = Ok (PyList [])
  /\ exists items ds,
       repeated_field "localized_object_annotations" SampleWorld.localization_answer
       = Ok items
       /\ PyList [ PyDict [ ("mid", PyStr "/m/01yrx"); ("name", PyStr "Cat");
                            ("score", PyFloat "0.93") ];
                   PyDict [ ("mid", PyStr "/m/0bt9lr"); ("name", PyStr "Dog");
                            ("score", PyFloat "0.81") ] ]
          = PyList ds
       /\ is_list_of_dicts
            (PyList [ PyDict [ ("mid", PyStr "/m/01yrx"); ("name", PyStr "Cat");
                               ("score", PyFloat "0.93") ];
                      PyDict [ ("mid", PyStr "/m/0bt9lr"); ("name", PyStr "Dog");
                               ("score", PyFloat "0.81") ] ]) = true
       /\ List.length ds = List.length items.
Proof.
  split.
  - apply (proj1 (proj1 (@X9_object_localization_returns_one_dict_per_object
                           Sample.foreign)
                    SampleReplies.object_detection SampleWorld.pixels
                    (SampleReplies.vision_answering SampleReplies.error_answer)
                    SampleReplies.error_answer eq_refl)).
    reflexivity.
  - apply (proj2 (proj2 (@X9_object_localization_returns_one_dict_per_object
                           Sample.foreign)
                    SampleReplies.ocr SampleWorld.pixels SampleWorld.world
                    SampleWorld.localization_answer eq_refl)).
    reflexivity.
Defined.

(** X11 at a credential with white space around its strings, and at one
    whose second element is a number. *)
Lemma X11_aip_client_holds_the_credential_witness :
  (exists m : AipAntiPornModel.t,
      AipAntiPornModel.__init__
        (PyTuple [PyStr " 11111111"; PyStr "api-key "; PyStr " secret-key "])
        default_bounds default_channel_axis default_preprocessing
        SampleWorld.world
      = (Ok m, SampleWorld.world)
      /\ AipAntiPornModel.model m = SampleWorld.censor
      /\ AipAntiPornModel.model_task (m, SampleWorld.world)
         = (Ok "cls", (m, SampleWorld.world))
      /\ calls (snd (snd (AipAntiPornModel.predictions (F := Sample.foreign)
                            SampleWorld.pixels (m, SampleWorld.world))))
         = (calls SampleWorld.world
              ++ [Call_antiPorn SampleWorld.censor SampleWorld.pixels])%list)
  /\ AipAntiPornModel.__init__
       (PyTuple [PyStr "11111111"; PyInt 7; PyStr "secret-key"])
       default_bounds default_channel_axis default_preprocessing
       SampleWorld.world
     = (Raise (AttributeError "'int' object has no attribute 'strip'"),
        SampleWorld.world).
Proof.
  split.
  - exact (proj1 (proj2
             (@X11_aip_client_holds_the_credential Sample.foreign
                (PyTuple [PyStr " 11111111"; PyStr "api-key ";
                          PyStr " secret-key "])
                (PyStr " 11111111") (PyStr "api-key ") (PyStr " secret-key ")
                default_bounds default_channel_axis default_preprocessing
                SampleWorld.pixels SampleWorld.world eq_refl))
             " 11111111" "api-key " " secret-key " eq_refl eq_refl eq_refl).
  - exact (proj1 (proj2 (proj2 (proj2
             (@X11_aip_client_holds_the_credential Sample.foreign
                (PyTuple [PyStr "11111111"; PyInt 7; PyStr "secret-key"])
                (PyStr "11111111") (PyInt 7) (PyStr "secret-key")
                default_bounds default_channel_axis default_preprocessing
                SampleWorld.pixels SampleWorld.world eq_refl))))
             eq_refl eq_refl).
Defined.

(** X12 at a pair and at [None]. *)
Lemma X12_aip_bad_credential_is_refused_witness :
  (exists msg,
      AipModel.__init__ (PyTuple [PyStr "11111111"; PyStr "api-key"])
        default_bounds default_channel_axis default_preprocessing SampleWorld.world
      = (Raise (ValueError msg), SampleWorld.world)
      /\ AipAntiPornModel.__init__ (PyTuple [PyStr "11111111"; PyStr "api-key"])
           default_bounds default_channel_axis default_preprocessing
           SampleWorld.world
         = (Raise (ValueError msg), SampleWorld.world))
  /\ (AipModel.__init__ PyNone default_bounds default_channel_axis
        default_preprocessing SampleWorld.world
      = (Raise TypeError, SampleWorld.world)
      /\ AipAntiPornModel.__init__ PyNone default_bounds default_channel_axis
           default_preprocessing SampleWorld.world
         = (Raise TypeError, SampleWorld.world)).
Proof.
  split.
  - apply (proj1 X12_aip_bad_credential_is_refused
             (PyTuple [PyStr "11111111"; PyStr "api-key"]) default_bounds
             default_channel_axis default_preprocessing SampleWorld.world
             [PyStr "11111111"; PyStr "api-key"]).
    + reflexivity.
    + discriminate.
  - apply (proj2 X12_aip_bad_credential_is_refused). left. reflexivity.
Defined.

Lemma X14_model_task_of_a_new_model_witness :
  OfflineAntiPornModel.model_task
    (SampleWorld.offline SampleWorld.service_url, SampleWorld.world)
  = (Ok "cls", (SampleWorld.offline SampleWorld.service_url, SampleWorld.world)).
Proof.
  apply (proj2 (proj2 (proj2 X14_model_task_of_a_new_model))
           SampleWorld.service_url default_bounds default_channel_axis
           default_preprocessing SampleWorld.world).
  reflexivity.
Defined.

Lemma X15_set_seeds_out_of_range_seeds_rng_only_witness :
  Rngs.set_seeds (G := SampleWorld.algorithms) 4294967296 (SampleWorld.imported 11)
  = (Raise (ValueError "Seed must be between 0 and 2**32 - 1"),
     {| Rngs.rng :=
          {| stream := Rngs.Random_stream (Algorithms := SampleWorld.algorithms)
                         4294967296;
             position := 0 |};
        Rngs.nprng := Rngs.nprng (SampleWorld.imported 11) |}).
Proof.
  apply (@X15_set_seeds_out_of_range_seeds_rng_only SampleWorld.algorithms).
  right. lia.
Defined.

Lemma X16_set_seeds_starts_over_witness :
  let before := [ (Rngs.From_rng, randint_request 0 9);
                  (Rngs.From_nprng, randint_request 0 9) ] in
  let after := [ (Rngs.From_nprng, randint_request 1 6);
                 (Rngs.From_rng, randint_request 1 6) ] in
  fst (bind (Rngs.set_seeds (G := SampleWorld.algorithms) 7)
            (fun _ => bind (Rngs.draws before)
                           (fun _ => bind (Rngs.set_seeds
                                             (G := SampleWorld.algorithms) 42)
                                          (fun _ => Rngs.draws after)))
            (SampleWorld.imported 11))
  = fst (bind (Rngs.set_seeds (G := SampleWorld.algorithms) 42)
              (fun _ => Rngs.draws after) (SampleWorld.imported 11)).
Proof.
  intros before after.
  apply (@X16_set_seeds_starts_over SampleWorld.algorithms Z 7 42); lia.
Defined.
